(** * Food calorie estimator: the inference client and its caller

    A shallow embedding of [streamlit_food_calorie_estimator.py]:
    [image_to_base64], [call_gemini_api] and the script that runs when the
    page is rendered.  Python values are a small inductive type, the calls
    into [requests], [time] and [streamlit] are recorded as a trace of
    events, and exceptions are explicit results. *)

From Stdlib Require Import ZArith NArith List String Ascii Bool Lia Permutation.
From Stdlib Require Import Strings.Byte.
From Stdlib Require Import SpecFloat.
Import ListNotations.

Local Open Scope string_scope.
Local Open Scope list_scope.
Local Open Scope Z_scope.

Set Warnings "-register-all".

(** ** Python values *)

(** The values that [json.loads] produces and that the script builds.
    [float] is IEEE binary64, carried as a [spec_float]; [str] is carried as
    a Rocq string (indexing agrees with Python on ASCII text); a [dict] keeps
    its insertion order and all its keys are [str]. *)
Inductive pyval : Type :=
| PNone
| PBool (b : bool)
| PInt (n : Z)
| PFloat (f : spec_float)
| PStr (s : string)
| PList (items : list pyval)
| PDict (entries : list (string * pyval)).

(** The exceptions that can travel through the script.  [HTTPError] is the
    subclass of [RequestException] raised by [raise_for_status];
    [RequestException] stands for every other exception of [requests]
    (connection errors, timeouts, ...).  [ValueError] is the plain one, not
    its subclass [JSONDecodeError].  [TableError] stands for whatever
    [st.table] raises on data it cannot draw (an exception of Streamlit,
    pandas or pyarrow): the script names none of them. *)
Inductive exn : Type :=
| HTTPError (status_code : Z)
| RequestException
| JSONDecodeError
| KeyError (key : pyval)
| IndexError
| TypeError
| AttributeError
| OverflowError
| OSError
| ValueError
| RecursionError
| TableError.

Inductive pyresult (A : Type) : Type :=
| Ok (a : A)
| Raise (e : exn).
Arguments Ok {A} a.
Arguments Raise {A} e.

(** [d[k]] / [d.get(k)] on the entries of a dict. *)
Fixpoint lookup (k : string) (d : list (string * pyval)) : option pyval :=
  match d with
  | [] => None
  | (k', v) :: rest => if String.eqb k k' then Some v else lookup k rest
  end.

(** [v[k]] for a [str] key [k], as in [result["candidates"]]. *)
Definition subscript_key (v : pyval) (k : string) : pyresult pyval :=
  match v with
  | PDict d =>
      match lookup k d with
      | Some x => Ok x
      | None => Raise (KeyError (PStr k))
      end
  | _ => Raise TypeError   (* list and str want integer indices; the others are not subscriptable *)
  end.

(** [v[i]] for an [int] index [i], as in [...[0]]: negative indices count
    from the end; a dict is searched for the key [i] and has none. *)
Definition subscript_index (v : pyval) (i : Z) : pyresult pyval :=
  match v with
  | PList l =>
      let n := Z.of_nat (List.length l) in
      let j := if i <? 0 then i + n else i in
      if (j <? 0) || (n <=? j) then Raise IndexError
      else match nth_error l (Z.to_nat j) with
           | Some x => Ok x
           | None => Raise IndexError
           end
  | PStr s =>
      let n := Z.of_nat (String.length s) in
      let j := if i <? 0 then i + n else i in
      if (j <? 0) || (n <=? j) then Raise IndexError
      else match String.get (Z.to_nat j) s with
           | Some c => Ok (PStr (String c EmptyString))
           | None => Raise IndexError
           end
  | PDict _ => Raise (KeyError (PInt i))
  | _ => Raise TypeError
  end.

(** Truth value of an object, as tested by [if results:]. *)
Definition truthy (v : pyval) : bool :=
  match v with
  | PNone => false
  | PBool b => b
  | PInt n => negb (n =? 0)
  | PFloat (S754_zero _) => false
  | PFloat _ => true
  | PStr s => negb (String.eqb s "")
  | PList l => match l with [] => false | _ => true end
  | PDict d => match d with [] => false | _ => true end
  end.

(** ** The libraries the script runs on

    What [json], the float arithmetic of the interpreter, Pillow and
    Streamlit's table compute is not part of the repository; it is taken as
    an interface. *)

(** What the decoder can raise: [JSONDecodeError] on text that is not JSON,
    [ValueError] on an integer literal of more digits than the interpreter
    converts, and [RecursionError] on nesting deeper than it follows. *)
Definition decoder_error (e : exn) : Prop :=
  match e with
  | JSONDecodeError | ValueError | RecursionError => True
  | _ => False
  end.

Class Runtime : Type := {
  (** [json.loads(s)], which [Response.json()] also runs on the body [s]:
      the decoded value, or the exception raised. *)
  json_loads : string -> pyresult pyval;
  json_loads_raises : forall s e, json_loads s = Raise e -> decoder_error e;
  (** The rest of the builtin [sum] once the running integer total [acc]
      meets a float [f], [rest] being the entries not yet visited.  The
      floats are added in binary64, left to right in the interpreters
      before version 3.12 and with a compensation term since. *)
  float_sum : Z -> spec_float -> list pyval -> pyresult pyval;
  (** An uploaded file and a decoded Pillow image. *)
  upload : Type;
  image : Type;
  (** [Image.open(f)]; [None] when Pillow cannot identify the file. *)
  Image_open : upload -> option image;
  (** The bytes written by [image.save(buffer, format="JPEG")]; [None] when
      the image cannot be written as JPEG. *)
  save_jpeg : image -> option (list byte);
  (** Whether [st.table(data)] draws [data]; when it does not, it raises. *)
  table_accepts : pyval -> bool
}.

(** ** Effects *)

(** The texts shown by [st.warning], [st.error], [st.success] and
    [st.header], with the values interpolated into them. *)
Inductive notice : Type :=
| Forbidden403          (* "Error: 403 Forbidden. There may be an issue with API key permissions." *)
| Retrying (delay attempt retries : Z)
                        (* "API call failed, retrying in {delay} seconds... (Attempt {i+1}/{retries})" *)
| CallFailed (e : exn)  (* "Error calling Gemini API: {e}" *)
| MaxRetriesExceeded    (* "Maximum retries exceeded. Could not get a response from the API." *)
| AnalysisComplete      (* "Analysis complete!" *)
| TotalEstimated (total : pyval)
                        (* "Total Estimated Calories: {total_calories} kcal" *)
| UploadFirst.          (* "Please upload an image first." *)

Inductive event : Type :=
| Post (url : string) (json : pyval)   (* requests.post(url, json=...) *)
| Sleep (seconds : Z)                  (* time.sleep(seconds) *)
| StWarning (n : notice)
| StError (n : notice)
| StSuccess (n : notice)
| StSubheader (text : string)
| StTable (data : pyval)                (* st.table(data) is called *)
| StHeader (n : notice)
| StPageConfig
| StTitle (text : string)
| StMarkdown (text : string)
| StFileUploader (label : string)
| StImage
| StButton (label : string)
| StSpinner (text : string).

(** What the backend does with the [n]-th request it receives. *)
Inductive reply : Type :=
| NoReply                                  (* the transport fails *)
| Reply (status_code : Z) (text : string). (* a response, with its body *)

(** A computation reads the number of requests sent so far and yields the
    events it emitted, the new count, and a value or an exception. *)
Definition M (A : Type) : Type := nat -> list event * nat * pyresult A.

Definition ret {A} (a : A) : M A := fun n => ([], n, Ok a).

Definition raise {A} (e : exn) : M A := fun n => ([], n, Raise e).

Definition bind {A B} (c : M A) (k : A -> M B) : M B :=
  fun n =>
    match c n with
    | (ev, n', Ok a) => let '(ev', n'', r) := k a n' in (ev ++ ev', n'', r)
    | (ev, n', Raise e) => (ev, n', Raise e)
    end.

(** [try: c  except ... as e: handler e]; a handler that matches no clause
    raises [e] again. *)
Definition catch {A} (c : M A) (handler : exn -> M A) : M A :=
  fun n =>
    match c n with
    | (ev, n', Raise e) => let '(ev', n'', r) := handler e n' in (ev ++ ev', n'', r)
    | done => done
    end.

Definition emit (e : event) : M unit := fun n => ([e], n, Ok tt).

Definition lift {A} (r : pyresult A) : M A := fun n => ([], n, r).

Notation "x <- c ;; k" := (bind c (fun x => k))
  (at level 61, c at next level, right associativity).
Notation "c ;;; k" := (bind c (fun _ => k))
  (at level 61, right associativity).

(** ** Constants *)

Definition API_KEY : string := "".
Definition API_URL : string :=
  "https://generativelanguage.googleapis.com/v1beta/models/gemini-2.5-flash-preview-05-20:generateContent?key=".
Definition MODEL_URL : string := (API_URL ++ API_KEY)%string.

Section Client.

Context {RT : Runtime}.
Variable backend : nat -> reply.

(** [requests.post(url, json=payload)]: the response, or a transport
    failure. *)
Definition requests_post (url : string) (payload : pyval) : M (Z * string) :=
  fun n =>
    ([Post url payload], S n,
     match backend n with
     | NoReply => Raise RequestException
     | Reply status_code text => Ok (status_code, text)
     end).

(** [response.raise_for_status()]: [HTTPError] for the client and server
    error statuses, 400 to 599. *)
Definition raise_for_status (response : Z * string) : M unit :=
  let status_code := fst response in
  if (400 <=? status_code) && (status_code <? 600)
  then raise (HTTPError status_code)
  else ret tt.

(** [response.json()]. *)
Definition response_json (response : Z * string) : M pyval :=
  lift (json_loads (snd response)).

(** [json.loads(x)] on a value: only text can be decoded. *)
Definition json_loads_value (x : pyval) : M pyval :=
  match x with
  | PStr s => lift (json_loads s)
  | _ => raise TypeError
  end.

(** [result["candidates"][0]["content"]["parts"][0]["text"]]. *)
Definition envelope_text (result : pyval) : pyresult pyval :=
  match subscript_key result "candidates" with
  | Raise e => Raise e
  | Ok candidates =>
  match subscript_index candidates 0 with
  | Raise e => Raise e
  | Ok candidate =>
  match subscript_key candidate "content" with
  | Raise e => Raise e
  | Ok content =>
  match subscript_key content "parts" with
  | Raise e => Raise e
  | Ok parts =>
  match subscript_index parts 0 with
  | Raise e => Raise e
  | Ok part => subscript_key part "text"
  end end end end end.

Definition st_warning (n : notice) : M unit := emit (StWarning n).
Definition st_error (n : notice) : M unit := emit (StError n).
Definition time_sleep (seconds : Z) : M unit := emit (Sleep seconds).

(** The request body built at the top of [call_gemini_api]. *)
Definition payload (prompt base64_image_data : string) : pyval :=
  PDict
    [ ("contents",
       PList
         [ PDict
             [ ("role", PStr "user");
               ("parts",
                PList
                  [ PDict [ ("text", PStr prompt) ];
                    PDict
                      [ ("inlineData",
                         PDict [ ("mimeType", PStr "image/jpeg");
                                 ("data", PStr base64_image_data) ]) ] ]) ] ]);
      ("generationConfig",
       PDict
         [ ("responseMimeType", PStr "application/json");
           ("responseSchema",
            PDict
              [ ("type", PStr "ARRAY");
                ("items",
                 PDict
                   [ ("type", PStr "OBJECT");
                     ("properties",
                      PDict
                        [ ("food_item", PDict [ ("type", PStr "STRING") ]);
                          ("calories", PDict [ ("type", PStr "NUMBER") ]) ]) ]) ]) ]) ].

(** How one iteration of the loop ends: by a [return], or by falling
    through to the next iteration with the updated [delay]. *)
Inductive flow : Type :=
| Returns (v : pyval)
| Continues (delay : Z).

(** The body of [for i in range(retries)]. *)
Definition attempt (request : pyval) (retries i delay : Z) : M flow :=
  catch
    (response <- requests_post MODEL_URL request ;;
     raise_for_status response ;;;
     result <- response_json response ;;
     json_string <- lift (envelope_text result) ;;
     v <- json_loads_value json_string ;;
     ret (Returns v))
    (fun e =>
       match e with
       | HTTPError status_code =>
           if status_code =? 403 then
             st_error Forbidden403 ;;;
             ret (Returns PNone)
           else
             st_warning (Retrying delay (i + 1) retries) ;;;
             time_sleep delay ;;;
             ret (Continues (delay * 2))
       | RequestException | JSONDecodeError | KeyError _ =>
           st_error (CallFailed e) ;;;
           ret (Returns PNone)
       | _ => raise e   (* no clause names it *)
       end).

(** The loop, [todo] iterations from index [i], and what follows it. *)
Fixpoint attempts (request : pyval) (retries : Z) (todo : nat) (i delay : Z)
  : M pyval :=
  match todo with
  | O =>
      st_error MaxRetriesExceeded ;;;
      ret PNone
  | S todo' =>
      f <- attempt request retries i delay ;;
      match f with
      | Returns v => ret v
      | Continues delay' => attempts request retries todo' (i + 1) delay'
      end
  end.

Definition call_gemini_api (prompt base64_image_data : string) (retries : Z)
  : M pyval :=
  attempts (payload prompt base64_image_data) retries (Z.to_nat retries) 0 1.

End Client.

(** ** The encoder *)

Definition b64_alphabet : string :=
  "ABCDEFGHIJKLMNOPQRSTUVWXYZabcdefghijklmnopqrstuvwxyz0123456789+/".

Definition b64_digit (n : N) : ascii :=
  match String.get (N.to_nat n) b64_alphabet with
  | Some c => c
  | None => "="%char
  end.

(** [base64.b64encode(data).decode("utf-8")]: three bytes give four digits
    of six bits each, the last group is padded with [=]. *)
Fixpoint b64encode (data : list byte) : string :=
  match data with
  | [] => ""
  | [a] =>
      let x := Byte.to_N a in
      String (b64_digit (x / 4))
        (String (b64_digit ((x mod 4) * 16)) "==")
  | [a; b] =>
      let x := Byte.to_N a in
      let y := Byte.to_N b in
      String (b64_digit (x / 4))
        (String (b64_digit ((x mod 4) * 16 + y / 16))
           (String (b64_digit ((y mod 16) * 4)) "="))
  | a :: b :: c :: rest =>
      let x := Byte.to_N a in
      let y := Byte.to_N b in
      let z := Byte.to_N c in
      String (b64_digit (x / 4))
        (String (b64_digit ((x mod 4) * 16 + y / 16))
           (String (b64_digit ((y mod 16) * 4 + z / 64))
              (String (b64_digit (z mod 64)) (b64encode rest))))
  end%N.

(** [image_to_base64]: the image is saved as JPEG into a buffer in memory
    and the buffer is encoded. *)
Definition image_to_base64 {RT : Runtime} (img : image) : pyresult string :=
  match save_jpeg img with
  | Some buffered => Ok (b64encode buffered)
  | None => Raise OSError
  end.

(** ** The page script *)

(** [text] with every apostrophe turned into a double quote. *)
Fixpoint dq (text : string) : string :=
  match text with
  | EmptyString => EmptyString
  | String c rest => String (if Ascii.eqb c "'" then "034"%char else c) (dq rest)
  end.

Definition prompt : string :=
  ("What food is in this picture? Provide the name of the food and a reasonable "
   ++ "estimated calorie count for a typical single serving size in an array of JSON objects. "
   ++ "For example, if you see an apple and a banana, return: "
   ++ dq "[{'food_item': 'Apple', 'calories': 95}, {'food_item': 'Banana', 'calories': 105}]. "
   ++ "Only respond with the JSON array, nothing else.")%string.

(** The items visited by [for item in results]. *)
Definition iterate (v : pyval) : pyresult (list pyval) :=
  match v with
  | PList l => Ok l
  | PDict d => Ok (map (fun kv => PStr (fst kv)) d)
  | PStr s => Ok (map (fun c => PStr (String c EmptyString)) (list_ascii_of_string s))
  | _ => Raise TypeError
  end.

(** [item.get("calories", 0)]: only a dict has [get]. *)
Definition get_calories (item : pyval) : pyresult pyval :=
  match item with
  | PDict d =>
      match lookup "calories" d with
      | Some v => Ok v
      | None => Ok (PInt 0)
      end
  | _ => Raise AttributeError
  end.

(** The builtin [sum] over the generator, from the integer total [acc]:
    each item is fetched and added in turn, so the first item that has no
    [get], or whose calories cannot be added to a number, ends the sum. *)
Fixpoint sum_from {RT : Runtime} (acc : Z) (items : list pyval) : pyresult pyval :=
  match items with
  | [] => Ok (PInt acc)
  | item :: rest =>
      match get_calories item with
      | Raise e => Raise e
      | Ok (PInt n) => sum_from (acc + n) rest
      | Ok (PBool b) => sum_from (acc + Z.b2z b) rest
      | Ok (PFloat f) => float_sum acc f rest
      | Ok _ => Raise TypeError
      end
  end.

(** [sum(item.get("calories", 0) for item in results)]. *)
Definition total_calories {RT : Runtime} (results : pyval) : pyresult pyval :=
  match iterate results with
  | Ok items => sum_from 0 items
  | Raise e => Raise e
  end.

Section Page.

Context {RT : Runtime}.
Variable backend : nat -> reply.

(** [st.table(data)]: the call, and the exception when the data cannot be
    drawn. *)
Definition st_table (data : pyval) : M unit :=
  emit (StTable data) ;;;
  if table_accepts data then ret tt else raise TableError.

(** The block under [with st.spinner("Analyzing image...")]. *)
Definition estimate_calories (img : image) : M unit :=
  emit (StSpinner "Analyzing image...") ;;;
  base64_image <- lift (image_to_base64 img) ;;
  results <- call_gemini_api backend prompt base64_image 5 ;;
  if truthy results then
    emit (StSuccess AnalysisComplete) ;;;
    emit (StSubheader "Calorie Breakdown") ;;;
    st_table results ;;;
    total <- lift (total_calories results) ;;
    emit (StHeader (TotalEstimated total))
  else
    ret tt.

(** [if uploaded_file:] on an uploaded file object, which defines neither
    [__bool__] nor [__len__]. *)
Definition file_is_true (file : upload) : bool := true.

(** One run of the script: [uploaded_file] is what [st.file_uploader]
    returns and [button] what [st.button] returns. *)
Definition script (uploaded_file : option upload) (button : bool) : M unit :=
  emit StPageConfig ;;;
  emit (StTitle "Food Calorie Estimator") ;;;
  emit (StMarkdown "Upload a picture of a meal to get a calorie estimate.") ;;;
  emit (StFileUploader "Choose an image...") ;;;
  match uploaded_file with
  | Some file =>
      img <- lift (match Image_open file with
                   | Some i => Ok i
                   | None => Raise OSError
                   end) ;;
      emit StImage ;;;
      emit (StButton "Estimate Calories") ;;;
      if button then
        if file_is_true file then estimate_calories img
        else emit (StWarning UploadFirst)
      else ret tt
  | None => ret tt
  end.

End Page.

(** ** A reference runtime

    A decoder for JSON text after [json.loads], used to run the script on
    concrete responses.  It has no limit on the digits of an integer
    literal or on the depth of nesting, so of the exceptions of the
    interface it raises [JSONDecodeError] only. *)
Module Json.

Definition is_ws (c : ascii) : bool :=
  Ascii.eqb c " " || Ascii.eqb c "009" || Ascii.eqb c "010" || Ascii.eqb c "013".

Fixpoint skip_ws (s : string) : string :=
  match s with
  | String c r => if is_ws c then skip_ws r else s
  | EmptyString => s
  end.

Definition digit (c : ascii) : option Z :=
  let n := Z.of_N (N_of_ascii c) in
  if (48 <=? n) && (n <=? 57) then Some (n - 48) else None.

Definition hex_digit (c : ascii) : option Z :=
  let n := Z.of_N (N_of_ascii c) in
  if (48 <=? n) && (n <=? 57) then Some (n - 48)
  else if (65 <=? n) && (n <=? 70) then Some (n - 55)
  else if (97 <=? n) && (n <=? 102) then Some (n - 87)
  else None.

(** The longest run of decimal digits at the head of [s]: its value, its
    length, and what follows. *)
Fixpoint digits (acc : Z) (len : Z) (s : string) : Z * Z * string :=
  match s with
  | String c r =>
      match digit c with
      | Some d => digits (10 * acc + d) (len + 1) r
      | None => (acc, len, s)
      end
  | EmptyString => (acc, len, s)
  end.

Fixpoint strip_prefix (p s : string) : option string :=
  match p, s with
  | EmptyString, _ => Some s
  | String a p', String b s' => if Ascii.eqb a b then strip_prefix p' s' else None
  | _, EmptyString => None
  end.

(** *** Floats *)

Definition prec : Z := 53.
Definition emax : Z := 1024.

(** The binary64 nearest to [m * 10 ^ e], ties to even, for [m > 0]. *)
Definition float_of_decimal (neg : bool) (m e : Z) : spec_float :=
  if m <=? 0 then S754_zero neg
  else if 0 <=? e then binary_round prec emax neg (Z.to_pos (m * 10 ^ e)) 0
  else
    let d := 10 ^ (- e) in
    let k := Z.max 0 (64 + Z.log2 d - Z.log2 m) in
    let (q, r) := Z.div_eucl (m * 2 ^ k) d in
    let loc := if r =? 0 then loc_Exact else loc_Inexact (Z.compare (2 * r) d) in
    binary_round_aux prec emax neg q (- k) loc.

(** *** Strings *)

Definition ascii_of_Z (n : Z) : ascii := ascii_of_N (Z.to_N n).

(** The UTF-8 encoding of the code point [cp]. *)
Definition utf8 (cp : Z) : string :=
  if cp <? 128 then String (ascii_of_Z cp) ""
  else if cp <? 2048 then
    String (ascii_of_Z (192 + cp / 64)) (String (ascii_of_Z (128 + cp mod 64)) "")
  else if cp <? 65536 then
    String (ascii_of_Z (224 + cp / 4096))
      (String (ascii_of_Z (128 + (cp / 64) mod 64))
         (String (ascii_of_Z (128 + cp mod 64)) ""))
  else
    String (ascii_of_Z (240 + cp / 262144))
      (String (ascii_of_Z (128 + (cp / 4096) mod 64))
         (String (ascii_of_Z (128 + (cp / 64) mod 64))
            (String (ascii_of_Z (128 + cp mod 64)) ""))).

Definition hex4 (a b c d : ascii) : option Z :=
  match hex_digit a, hex_digit b, hex_digit c, hex_digit d with
  | Some x, Some y, Some z, Some w => Some (((x * 16 + y) * 16 + z) * 16 + w)
  | _, _, _, _ => None
  end.

(** The text of a string literal, after its opening quote, up to the closing
    quote.  Control characters are refused; a pair of surrogate escapes
    makes one code point. *)
Fixpoint str_body (s : string) : option (string * string) :=
  match s with
  | EmptyString => None
  | String "034" r => Some ("", r)
  | String "\" (String "u" (String a (String b (String c (String d r))))) =>
      match hex4 a b c d with
      | None => None
      | Some hi =>
          let single :=
            match str_body r with
            | Some (t, r') => Some ((utf8 hi ++ t)%string, r')
            | None => None
            end in
          if (55296 <=? hi) && (hi <=? 56319) then
            match r with
            | String "\" (String "u" (String a' (String b' (String c' (String d' r2))))) =>
                match hex4 a' b' c' d' with
                | Some lo =>
                    if (56320 <=? lo) && (lo <=? 57343) then
                      match str_body r2 with
                      | Some (t, r') =>
                          Some ((utf8 (65536 + (hi - 55296) * 1024 + (lo - 56320)) ++ t)%string, r')
                      | None => None
                      end
                    else single
                | None => single
                end
            | _ => single
            end
          else single
      end
  | String "\" (String e r) =>
      let esc (c : ascii) :=
        match str_body r with
        | Some (t, r') => Some (String c t, r')
        | None => None
        end in
      match e with
      | "034" => esc "034"
      | "\" => esc "\"
      | "/" => esc "/"
      | "b" => esc "008"
      | "f" => esc "012"
      | "n" => esc "010"
      | "r" => esc "013"
      | "t" => esc "009"
      | _ => None
      end%char
  | String "\" EmptyString => None
  | String c r =>
      if (N_of_ascii c <? 32)%N then None
      else match str_body r with
           | Some (t, r') => Some (String c t, r')
           | None => None
           end
  end.

(** *** Numbers and the literal names *)

Definition number (s : string) : option (pyval * string) :=
  let '(neg, s1) :=
    match s with
    | String "-" r => (true, r)
    | _ => (false, s)
    end in
  let int_part :=
    match s1 with
    | String "0" r => Some (0, r)
    | String c _ =>
        match digit c with
        | Some _ => let '(n, _, r) := digits 0 0 s1 in Some (n, r)
        | None => None
        end
    | EmptyString => None
    end in
  match int_part with
  | None => None
  | Some (n, r) =>
      let '(has_frac, m, flen, r1) :=
        match r with
        | String "." r' =>
            let '(f, len, r'') := digits n 0 r' in
            if 0 <? len then (true, f, len, r'') else (false, n, 0, r)
        | _ => (false, n, 0, r)
        end in
      let '(has_exp, ex, r2) :=
        match r1 with
        | String c r' =>
            if Ascii.eqb c "e" || Ascii.eqb c "E" then
              let '(eneg, r'') :=
                match r' with
                | String "-" t => (true, t)
                | String "+" t => (false, t)
                | _ => (false, r')
                end in
              let '(x, len, r3) := digits 0 0 r'' in
              if 0 <? len then (true, if eneg then - x else x, r3) else (false, 0, r1)
            else (false, 0, r1)
        | EmptyString => (false, 0, r1)
        end in
      if has_frac || has_exp
      then Some (PFloat (float_of_decimal neg m (ex - flen)), r2)
      else Some (PInt (if neg then - n else n), r2)
  end.

Definition constant (s : string) : option (pyval * string) :=
  match strip_prefix "null" s with
  | Some r => Some (PNone, r)
  | None =>
  match strip_prefix "true" s with
  | Some r => Some (PBool true, r)
  | None =>
  match strip_prefix "false" s with
  | Some r => Some (PBool false, r)
  | None =>
  match number s with
  | Some v => Some v
  | None =>
  match strip_prefix "NaN" s with
  | Some r => Some (PFloat S754_nan, r)
  | None =>
  match strip_prefix "Infinity" s with
  | Some r => Some (PFloat (S754_infinity false), r)
  | None =>
  match strip_prefix "-Infinity" s with
  | Some r => Some (PFloat (S754_infinity true), r)
  | None => None
  end end end end end end end.

(** *** Values *)

(** [d[k] = v] on the entries of a dict: a key met again keeps its place
    and takes the new value. *)
Fixpoint dict_set (k : string) (v : pyval) (d : list (string * pyval))
  : list (string * pyval) :=
  match d with
  | [] => [(k, v)]
  | (k', v') :: rest =>
      if String.eqb k k' then (k, v) :: rest else (k', v') :: dict_set k v rest
  end.

(** [value fuel s] reads one value at the head of [s]; [elements] and
    [members] read the rest of an array and of an object once their opening
    bracket and the blanks after it are passed. *)
Fixpoint value (fuel : nat) (s : string) : option (pyval * string) :=
  match fuel with
  | O => None
  | S fuel' =>
      match s with
      | String "034" r =>
          match str_body r with
          | Some (t, r') => Some (PStr t, r')
          | None => None
          end
      | String "{" r =>
          match skip_ws r with
          | String "}" r' => Some (PDict [], r')
          | r1 => members fuel' [] r1
          end
      | String "[" r =>
          match skip_ws r with
          | String "]" r' => Some (PList [], r')
          | r1 => elements fuel' [] r1
          end
      | _ => constant s
      end
  end
with elements (fuel : nat) (acc : list pyval) (s : string) : option (pyval * string) :=
  match fuel with
  | O => None
  | S fuel' =>
      match value fuel' s with
      | None => None
      | Some (v, r) =>
          match skip_ws r with
          | String "," r' => elements fuel' (acc ++ [v]) (skip_ws r')
          | String "]" r' => Some (PList (acc ++ [v]), r')
          | _ => None
          end
      end
  end
with members (fuel : nat) (acc : list (string * pyval)) (s : string)
  : option (pyval * string) :=
  match fuel with
  | O => None
  | S fuel' =>
      match s with
      | String "034" r =>
          match str_body r with
          | None => None
          | Some (k, r1) =>
              match skip_ws r1 with
              | String ":" r2 =>
                  match value fuel' (skip_ws r2) with
                  | None => None
                  | Some (v, r3) =>
                      match skip_ws r3 with
                      | String "," r4 => members fuel' (dict_set k v acc) (skip_ws r4)
                      | String "}" r4 => Some (PDict (dict_set k v acc), r4)
                      | _ => None
                      end
                  end
              | _ => None
              end
          end
      | _ => None
      end
  end.

(** [json.loads(s)]: one value with blanks around it and nothing else. *)
Definition loads (s : string) : option pyval :=
  match value (2 * String.length s + 2) (skip_ws s) with
  | Some (v, r) =>
      match skip_ws r with
      | EmptyString => Some v
      | _ => None
      end
  | None => None
  end.

End Json.

(** A runtime to run the script on: the decoder above, left-to-right float
    addition for [sum], a stand-in for Pillow whose codec frames the pixel
    bytes, and a stand-in for Streamlit's table. *)
Module Reference.

(** [json.loads] by the decoder above: what it cannot read is
    [JSONDecodeError]. *)
Definition loads (s : string) : pyresult pyval :=
  match Json.loads s with
  | Some v => Ok v
  | None => Raise JSONDecodeError
  end.

(** It raises nothing else. *)
Definition loads_raises (s : string) (e : exn)
  : loads s = Raise e -> decoder_error e :=
  let raised (r : pyresult pyval) : Prop :=
    match r with
    | Ok _ => True
    | Raise e' => decoder_error e'
    end in
  match Json.loads s as o
    return match o with
           | Some v => Ok v
           | None => Raise JSONDecodeError
           end = Raise e -> decoder_error e
  with
  | Some v => fun H => match H in _ = r return raised r with eq_refl => I end
  | None => fun H => match H in _ = r return raised r with eq_refl => I end
  end.

Record picture : Type := { mode : string; pixels : list byte }.

(** The modes that can be written as JPEG. *)
Definition jpeg_modes : list string := ["1"; "L"; "RGB"; "RGBX"; "CMYK"; "YCbCr"].

Definition save (p : picture) : option (list byte) :=
  if existsb (String.eqb (mode p)) jpeg_modes
  then Some ([xff; xd8] ++ pixels p ++ [xff; xd9])%byte
  else None.

(** An uploaded file: a photo that decodes to a picture, or something
    Pillow cannot identify. *)
Inductive file : Type :=
| Photo (p : picture)
| Junk.

Definition open (f : file) : option picture :=
  match f with
  | Photo p => Some p
  | Junk => None
  end.

(** [float(n)]: the nearest binary64, or [OverflowError] beyond its range. *)
Definition float_of_int (n : Z) : pyresult spec_float :=
  match binary_normalize Json.prec Json.emax n 0 false with
  | S754_infinity _ => Raise OverflowError
  | f => Ok f
  end.

Definition fadd : spec_float -> spec_float -> spec_float :=
  SFadd Json.prec Json.emax.

(** The sum continued in floats, one addition per item from left to right
    (the interpreter's own loop before version 3.12). *)
Fixpoint add_floats (acc : spec_float) (items : list pyval) : pyresult pyval :=
  match items with
  | [] => Ok (PFloat acc)
  | item :: rest =>
      match get_calories item with
      | Raise e => Raise e
      | Ok (PFloat f) => add_floats (fadd acc f) rest
      | Ok (PInt n) =>
          match float_of_int n with
          | Ok f => add_floats (fadd acc f) rest
          | Raise e => Raise e
          end
      | Ok (PBool b) =>
          let f := if b then SFone Json.prec Json.emax else S754_zero false in
          add_floats (fadd acc f) rest
      | Ok _ => Raise TypeError
      end
  end.

(** The data that the table draws: a list of objects, or one object, whose
    integers fit in 64 bits.  Numbers, strings and lists with an entry that
    is not an object are refused. *)
Definition fits_int64 (v : pyval) : bool :=
  match v with
  | PInt n => (- 2 ^ 63 <=? n) && (n <? 2 ^ 63)
  | _ => true
  end.

Definition is_row (v : pyval) : bool :=
  match v with
  | PDict d => forallb (fun kv => fits_int64 (snd kv)) d
  | _ => false
  end.

Definition draws (data : pyval) : bool :=
  match data with
  | PList rows => forallb is_row rows
  | PDict _ => is_row data
  | _ => false
  end.

#[export] Instance runtime : Runtime := {
  json_loads := loads;
  json_loads_raises := loads_raises;
  float_sum acc f rest :=
    match float_of_int acc with
    | Ok a => add_floats (fadd a f) rest
    | Raise e => Raise e
    end;
  upload := file;
  image := picture;
  Image_open := open;
  save_jpeg := save;
  table_accepts := draws
}.

End Reference.

(** ** Reading a trace *)

Definition is_post (e : event) : bool :=
  match e with
  | Post _ _ => true
  | _ => false
  end.

(** The number of requests sent. *)
Definition count_posts (trace : list event) : nat :=
  List.length (filter is_post trace).

(** The delays slept, in order. *)
Fixpoint sleeps (trace : list event) : list Z :=
  match trace with
  | [] => []
  | Sleep d :: rest => d :: sleeps rest
  | _ :: rest => sleeps rest
  end.

Definition total_sleep (trace : list event) : Z :=
  fold_right Z.add 0 (sleeps trace).

(** Everything the page shows: the events other than requests and sleeps. *)
Definition is_shown (e : event) : bool :=
  match e with
  | Post _ _ | Sleep _ => false
  | _ => true
  end.

(** The events of [k] attempts in a row that each end in the retry branch,
    from loop index [i] and delay [delay]. *)
Fixpoint retry_trace (request : pyval) (retries : Z) (k : nat) (i delay : Z)
  : list event :=
  match k with
  | O => []
  | S k' =>
      Post MODEL_URL request
        :: StWarning (Retrying delay (i + 1) retries)
        :: Sleep delay
        :: retry_trace request retries k' (i + 1) (delay * 2)
  end.

(** A response whose status is an HTTP error other than 403. *)
Definition retryable (r : reply) : Prop :=
  exists status_code text,
    r = Reply status_code text /\ 400 <= status_code < 600 /\ status_code <> 403.

(** A key on the way to [candidates[0].content.parts[0].text] is missing
    from its object, [k] being the first such key.  An empty array or a
    null on the way is another matter: it raises [IndexError] or
    [TypeError], not [KeyError]. *)
Inductive missing_field : pyval -> string -> Prop :=
| missing_candidates d :
    lookup "candidates" d = None ->
    missing_field (PDict d) "candidates"
| missing_content d candidates c :
    lookup "candidates" d = Some candidates ->
    subscript_index candidates 0 = Ok (PDict c) ->
    lookup "content" c = None ->
    missing_field (PDict d) "content"
| missing_parts d candidates c ct :
    lookup "candidates" d = Some candidates ->
    subscript_index candidates 0 = Ok (PDict c) ->
    lookup "content" c = Some (PDict ct) ->
    lookup "parts" ct = None ->
    missing_field (PDict d) "parts"
| missing_text d candidates c ct parts p :
    lookup "candidates" d = Some candidates ->
    subscript_index candidates 0 = Ok (PDict c) ->
    lookup "content" c = Some (PDict ct) ->
    lookup "parts" ct = Some parts ->
    subscript_index parts 0 = Ok (PDict p) ->
    lookup "text" p = None ->
    missing_field (PDict d) "text".

(** The failures of one attempt that the second [except] clause names, with
    the exception each one raises: no response at all, a response whose body
    is not JSON, an envelope with a key missing, and a text payload that is
    not JSON.  The status is one that [raise_for_status] lets through, the
    2xx statuses among them. *)
Inductive fatal_failure {RT : Runtime} : reply -> exn -> Prop :=
| transport_failure :
    fatal_failure NoReply RequestException
| malformed_body s text :
    ~ 400 <= s < 600 ->
    json_loads text = Raise JSONDecodeError ->
    fatal_failure (Reply s text) JSONDecodeError
| field_missing s text envelope k :
    ~ 400 <= s < 600 ->
    json_loads text = Ok envelope ->
    missing_field envelope k ->
    fatal_failure (Reply s text) (KeyError (PStr k))
| malformed_payload s text envelope payload_text :
    ~ 400 <= s < 600 ->
    json_loads text = Ok envelope ->
    envelope_text envelope = Ok (PStr payload_text) ->
    json_loads payload_text = Raise JSONDecodeError ->
    fatal_failure (Reply s text) JSONDecodeError.

(** The exceptions that subscripting can raise. *)
Definition subscript_error (e : exn) : Prop :=
  match e with
  | KeyError _ | IndexError | TypeError => True
  | _ => False
  end.

(** The events of the breakdown: the banner, the table and its headings. *)
Definition is_breakdown (e : event) : bool :=
  match e with
  | StSuccess _ | StSubheader _ | StTable _ | StHeader _ => true
  | _ => false
  end.

(** [v] is the whole text payload of the response [r], decoded. *)
Definition decoded_from {RT : Runtime} (r : reply) (v : pyval) : Prop :=
  exists s text envelope payload_text,
    r = Reply s text
    /\ json_loads text = Ok envelope
    /\ envelope_text envelope = Ok (PStr payload_text)
    /\ json_loads payload_text = Ok v.

(** An entry of the shape [{food_item: string, calories: number}]. *)
Definition schema_valid (entry : pyval) : bool :=
  match entry with
  | PDict d =>
      match lookup "food_item" d, lookup "calories" d with
      | Some (PStr _), Some (PInt _ | PFloat _) => true
      | _, _ => false
      end
  | _ => false
  end.

(** ** Examples of uploads and responses *)

(** The response of the specification's example, and what it decodes to. *)
Definition apple_body : string :=
  dq "{'candidates':[{'content':{'parts':[{'text':'[{\'food_item\':\'Apple\',\'calories\':95}]'}]}}]}".

Definition apple_result : pyval :=
  PList [PDict [("food_item", PStr "Apple"); ("calories", PInt 95)]].

(** A picture that can be written as JPEG, and one with an alpha channel,
    which cannot. *)
Definition meal : Reference.picture :=
  {| Reference.mode := "RGB"; Reference.pixels := [x10; x20; x30]%byte |}.

Definition cutout : Reference.picture :=
  {| Reference.mode := "RGBA"; Reference.pixels := [x10; x20; x30; xff]%byte |}.

(** What a run of the script shows and sends up to the first request, for
    an upload that opens and encodes to [base64_image]. *)
Definition opening (base64_image : string) : list event :=
  [ StPageConfig;
    StTitle "Food Calorie Estimator";
    StMarkdown "Upload a picture of a meal to get a calorie estimate.";
    StFileUploader "Choose an image...";
    StImage;
    StButton "Estimate Calories";
    StSpinner "Analyzing image...";
    Post MODEL_URL (payload prompt base64_image) ].

(** A backend that answers 500 four times and then as in the example. *)
Definition recovering (n : nat) : reply :=
  if (n <? 4)%nat then Reply 500 "" else Reply 200 apple_body.

(** A response that carries an error object instead of candidates, and one
    whose only candidate was stopped before it had any content. *)
Definition error_body : string :=
  dq "{'error': {'code': 200, 'status': 'UNKNOWN'}}".

Definition blocked_body : string :=
  dq "{'candidates': [{'finishReason': 'SAFETY', 'index': 0}]}".

(** A text payload that is one object instead of an array of objects. *)
Definition object_body : string :=
  dq "{'candidates':[{'content':{'parts':[{'text':'{\'food_item\':\'Apple\',\'calories\':95}'}]}}]}".

Definition object_result : pyval :=
  PDict [("food_item", PStr "Apple"); ("calories", PInt 95)].

(** An envelope whose [candidates] array is empty. *)
Definition empty_candidates_body : string := dq "{'candidates': []}".

(** An envelope whose first candidate has an empty [parts] array, and one
    whose [candidates] is null. *)
Definition empty_parts_body : string :=
  dq "{'candidates': [{'content': {'parts': []}}]}".

Definition null_candidates_body : string := dq "{'candidates': null}".

(** A text payload with one entry of the schema and one that has neither of
    its fields. *)
Definition mixed_body : string :=
  dq "{'candidates':[{'content':{'parts':[{'text':'[{\'food_item\':\'Apple\',\'calories\':95},{\'label\':\'Pear\'}]'}]}}]}".

Definition mixed_entries : list pyval :=
  [ PDict [("food_item", PStr "Apple"); ("calories", PInt 95)];
    PDict [("label", PStr "Pear")] ].

(** A text payload that is the empty array. *)
Definition empty_body : string :=
  dq "{'candidates':[{'content':{'parts':[{'text':'[]'}]}}]}".

(** A text payload with a negative calorie count and an empty label. *)
Definition negative_body : string :=
  dq "{'candidates':[{'content':{'parts':[{'text':'[{\'food_item\':\'\',\'calories\':-120},{\'food_item\':\'Water\',\'calories\':20}]'}]}}]}".

Definition negative_entries : list pyval :=
  [ PDict [("food_item", PStr ""); ("calories", PInt (-120))];
    PDict [("food_item", PStr "Water"); ("calories", PInt 20)] ].

(** The total as the specification words it, in exact arithmetic: the sum
    of [calories] over the entries, an entry without the field counting for
    zero.  It is defined when every entry is an object whose calories, if
    there, is an integer; a fractional number has no place in an exact sum
    of integers, and anything else is no number at all. *)
Definition calories_or_zero (entry : pyval) : option Z :=
  match entry with
  | PDict d =>
      match lookup "calories" d with
      | None => Some 0
      | Some (PInt n) => Some n
      | Some _ => None
      end
  | _ => None
  end.

Fixpoint TotalCalories (entries : list pyval) : option Z :=
  match entries with
  | [] => Some 0
  | entry :: rest =>
      match calories_or_zero entry, TotalCalories rest with
      | Some calories, Some total => Some (calories + total)
      | _, _ => None
      end
  end.

(** An entry that is an object whose [calories], when present, is an
    integer. *)
Definition integer_calories (entry : pyval) : Prop :=
  exists d,
    entry = PDict d
    /\ (lookup "calories" d = None \/ exists n, lookup "calories" d = Some (PInt n)).






(** The three parts of a run. *)
Definition trace_of {A} (run : list event * nat * pyresult A) : list event :=
  fst (fst run).

Definition count_of {A} (run : list event * nat * pyresult A) : nat :=
  snd (fst run).

Definition result_of {A} (run : list event * nat * pyresult A) : pyresult A :=
  snd run.


Definition is_upload_first (e : event) : bool :=
  match e with
  | StWarning UploadFirst => true
  | _ => false
  end.

(** The widgets of the page, which come before any request. *)
Definition is_widget (e : event) : bool :=
  match e with
  | StPageConfig | StTitle _ | StMarkdown _ | StFileUploader _ | StImage
  | StButton _ | StSpinner _ => true
  | _ => false
  end.

(** A value of [calories] that cannot be added to a number. *)
Definition not_a_number (c : pyval) : Prop :=
  match c with
  | PNone | PStr _ | PList _ | PDict _ => True
  | _ => False
  end.

(** The place of a character in the base64 alphabet. *)
Fixpoint index_in (c : ascii) (alphabet : string) (at_ : N) : option N :=
  match alphabet with
  | EmptyString => None
  | String a rest => if Ascii.eqb c a then Some at_ else index_in c rest (at_ + 1)
  end.

Definition b64_index (c : ascii) : option N := index_in c b64_alphabet 0.

(** The three bytes held by four base64 digits. *)
Definition b64_bytes (v1 v2 v3 v4 : N) : option (list byte) :=
  match Byte.of_N (v1 * 4 + v2 / 16),
        Byte.of_N ((v2 mod 16) * 16 + v3 / 4),
        Byte.of_N ((v3 mod 4) * 64 + v4) with
  | Some a, Some b, Some c => Some [a; b; c]
  | _, _, _ => None
  end%N.

(** What the receiving end does with the encoded image: base64 text read
    back four characters at a time, strictly after RFC 4648 (padding only
    in the last group, nothing outside the alphabet). *)
Fixpoint b64decode (text : string) : option (list byte) :=
  match text with
  | EmptyString => Some []
  | String c1 (String c2 (String c3 (String c4 rest))) =>
      match b64_index c1, b64_index c2, b64_index c3, b64_index c4 with
      | Some v1, Some v2, Some v3, Some v4 =>
          match b64_bytes v1 v2 v3 v4, b64decode rest with
          | Some group, Some bytes => Some (group ++ bytes)
          | _, _ => None
          end
      | Some v1, Some v2, Some v3, None =>
          if Ascii.eqb c4 "=" && String.eqb rest "" && (v3 mod 4 =? 0)%N then
            match b64_bytes v1 v2 v3 0 with
            | Some [a; b; _] => Some [a; b]
            | _ => None
            end
          else None
      | Some v1, Some v2, None, None =>
          if Ascii.eqb c3 "=" && Ascii.eqb c4 "=" && String.eqb rest ""
             && (v2 mod 16 =? 0)%N then
            match b64_bytes v1 v2 0 0 with
            | Some [a; _; _] => Some [a]
            | _ => None
            end
          else None
      | _, _, _, _ => None
      end
  | _ => None
  end.

(** The characters that may occur in base64 text. *)
Definition b64_chars : list ascii :=
  list_ascii_of_string (b64_alphabet ++ "=").

(** ** The ways a call can end *)

(** The exceptions named by the second [except] clause. *)
Definition caught (e : exn) : Prop :=
  match e with
  | RequestException | JSONDecodeError | KeyError _ => True
  | _ => False
  end.

(** What the attempt that ends the loop emits and yields, given the reply
    [r] to its request: a 403, a caught failure, a decoded payload, or an
    exception that no clause names, raised while the envelope is read or by
    the decoder. *)
Inductive last_attempt {RT : Runtime} (request : pyval) (r : reply)
  : list event -> pyresult pyval -> Prop :=
| last_forbidden text :
    r = Reply 403 text ->
    last_attempt request r
      [Post MODEL_URL request; StError Forbidden403] (Ok PNone)
| last_failed e :
    caught e ->
    last_attempt request r
      [Post MODEL_URL request; StError (CallFailed e)] (Ok PNone)
| last_success v :
    decoded_from r v ->
    last_attempt request r [Post MODEL_URL request] (Ok v)
| last_escaped e :
    e = IndexError \/ e = TypeError ->
    last_attempt request r [Post MODEL_URL request] (Raise e)
| last_refused e :
    e = ValueError \/ e = RecursionError ->
    last_attempt request r [Post MODEL_URL request] (Raise e).

(** ** The loop, one attempt at a time *)

Section ClientFacts.

Context {RT : Runtime}.
Variable backend : nat -> reply.

Lemma attempt_retry request retries i delay n :
  retryable (backend n) ->
  attempt backend request retries i delay n
  = ([Post MODEL_URL request; StWarning (Retrying delay (i + 1) retries); Sleep delay],
     S n, Ok (Continues (delay * 2))).
Proof.
  intros (s & text & Hr & Hs & H403).
  unfold attempt, catch, bind, requests_post, raise_for_status. rewrite Hr. cbn.
  replace ((400 <=? s) && (s <? 600)) with true
    by (symmetry; apply andb_true_iff; split; [apply Z.leb_le | apply Z.ltb_lt]; lia).
  cbn. replace (s =? 403) with false by (symmetry; apply Z.eqb_neq; assumption).
  reflexivity.
Qed.

Lemma attempt_forbidden request retries i delay n text :
  backend n = Reply 403 text ->
  attempt backend request retries i delay n
  = ([Post MODEL_URL request; StError Forbidden403], S n, Ok (Returns PNone)).
Proof.
  intros Hr. unfold attempt, catch, bind, requests_post, raise_for_status.
  rewrite Hr. reflexivity.
Qed.

Lemma attempt_no_reply request retries i delay n :
  backend n = NoReply ->
  attempt backend request retries i delay n
  = ([Post MODEL_URL request; StError (CallFailed RequestException)], S n,
     Ok (Returns PNone)).
Proof.
  intros Hr. unfold attempt, catch, bind, requests_post. rewrite Hr. reflexivity.
Qed.

Lemma status_passes s :
  ~ 400 <= s < 600 -> (400 <=? s) && (s <? 600) = false.
Proof.
  intros H. apply andb_false_iff.
  destruct (Z.leb_spec 400 s); [right; apply Z.ltb_ge; lia | left; reflexivity].
Qed.

Ltac run_attempt Hr Hs Hj :=
  unfold attempt, catch, bind, requests_post, raise_for_status, response_json, lift;
  rewrite Hr; cbn; rewrite (status_passes _ Hs); cbn; rewrite Hj; cbn.

Lemma attempt_bad_body request retries i delay n s text :
  backend n = Reply s text ->
  ~ 400 <= s < 600 ->
  json_loads text = Raise JSONDecodeError ->
  attempt backend request retries i delay n
  = ([Post MODEL_URL request; StError (CallFailed JSONDecodeError)], S n,
     Ok (Returns PNone)).
Proof.
  intros Hr Hs Hj. run_attempt Hr Hs Hj. reflexivity.
Qed.

Lemma attempt_key_error request retries i delay n s text envelope k :
  backend n = Reply s text ->
  ~ 400 <= s < 600 ->
  json_loads text = Ok envelope ->
  envelope_text envelope = Raise (KeyError k) ->
  attempt backend request retries i delay n
  = ([Post MODEL_URL request; StError (CallFailed (KeyError k))], S n,
     Ok (Returns PNone)).
Proof.
  intros Hr Hs Hj He. run_attempt Hr Hs Hj. rewrite He. reflexivity.
Qed.

Lemma attempt_bad_payload request retries i delay n s text envelope payload_text :
  backend n = Reply s text ->
  ~ 400 <= s < 600 ->
  json_loads text = Ok envelope ->
  envelope_text envelope = Ok (PStr payload_text) ->
  json_loads payload_text = Raise JSONDecodeError ->
  attempt backend request retries i delay n
  = ([Post MODEL_URL request; StError (CallFailed JSONDecodeError)], S n,
     Ok (Returns PNone)).
Proof.
  intros Hr Hs Hj He Hp. run_attempt Hr Hs Hj. rewrite He. cbn. rewrite Hp.
  reflexivity.
Qed.

Lemma attempt_success request retries i delay n s text envelope payload_text v :
  backend n = Reply s text ->
  ~ 400 <= s < 600 ->
  json_loads text = Ok envelope ->
  envelope_text envelope = Ok (PStr payload_text) ->
  json_loads payload_text = Ok v ->
  attempt backend request retries i delay n
  = ([Post MODEL_URL request], S n, Ok (Returns v)).
Proof.
  intros Hr Hs Hj He Hp. run_attempt Hr Hs Hj. rewrite He. cbn. rewrite Hp.
  reflexivity.
Qed.

(** [IndexError] and [TypeError] are named by no [except] clause. *)
Lemma attempt_escapes request retries i delay n s text envelope e :
  backend n = Reply s text ->
  ~ 400 <= s < 600 ->
  json_loads text = Ok envelope ->
  envelope_text envelope = Raise e ->
  e = IndexError \/ e = TypeError ->
  attempt backend request retries i delay n
  = ([Post MODEL_URL request], S n, Raise e).
Proof.
  intros Hr Hs Hj He Hk. run_attempt Hr Hs Hj. rewrite He.
  destruct Hk; subst e; reflexivity.
Qed.

(** Nor are the [ValueError] and the [RecursionError] of the decoder, on
    the body or on the text payload. *)
Lemma attempt_body_refused request retries i delay n s text e :
  backend n = Reply s text ->
  ~ 400 <= s < 600 ->
  json_loads text = Raise e ->
  e = ValueError \/ e = RecursionError ->
  attempt backend request retries i delay n
  = ([Post MODEL_URL request], S n, Raise e).
Proof.
  intros Hr Hs Hj Hk. run_attempt Hr Hs Hj.
  destruct Hk; subst e; reflexivity.
Qed.

Lemma attempt_payload_refused request retries i delay n s text envelope
    payload_text e :
  backend n = Reply s text ->
  ~ 400 <= s < 600 ->
  json_loads text = Ok envelope ->
  envelope_text envelope = Ok (PStr payload_text) ->
  json_loads payload_text = Raise e ->
  e = ValueError \/ e = RecursionError ->
  attempt backend request retries i delay n
  = ([Post MODEL_URL request], S n, Raise e).
Proof.
  intros Hr Hs Hj He Hp Hk. run_attempt Hr Hs Hj. rewrite He. cbn. rewrite Hp.
  destruct Hk; subst e; reflexivity.
Qed.

(** [k] retried attempts, then the rest of the loop. *)
Lemma attempts_retry request retries k :
  forall todo i delay n,
    (forall j, (j < k)%nat -> retryable (backend (n + j)%nat)) ->
    attempts backend request retries (k + todo) i delay n
    = let '(ev, n', r) :=
        attempts backend request retries todo (i + Z.of_nat k)
          (delay * 2 ^ Z.of_nat k) (n + k)%nat in
      (retry_trace request retries k i delay ++ ev, n', r).
Proof.
  induction k as [| k IH]; intros todo i delay n H.
  - cbn [Nat.add retry_trace app Z.of_nat]. rewrite Z.add_0_r, Z.mul_1_r, Nat.add_0_r.
    destruct (attempts backend request retries todo i delay n) as [[ev n'] r].
    reflexivity.
  - cbn [Nat.add attempts]. unfold bind at 1.
    rewrite attempt_retry by (specialize (H 0%nat); rewrite Nat.add_0_r in H; apply H; lia).
    rewrite IH.
    + replace (i + 1 + Z.of_nat k) with (i + Z.of_nat (S k)) by lia.
      replace (delay * 2 * 2 ^ Z.of_nat k) with (delay * 2 ^ Z.of_nat (S k))
        by (rewrite Nat2Z.inj_succ, Z.pow_succ_r by lia; ring).
      replace (S n + k)%nat with (n + S k)%nat by lia.
      destruct (attempts backend request retries todo (i + Z.of_nat (S k))
                  (delay * 2 ^ Z.of_nat (S k)) (n + S k)%nat) as [[ev n'] r].
      reflexivity.
    + intros j Hj. replace (S n + j)%nat with (n + S j)%nat by lia. apply H. lia.
Qed.

End ClientFacts.

(** ** Facts about traces *)

Lemma count_posts_app t1 t2 :
  count_posts (t1 ++ t2) = (count_posts t1 + count_posts t2)%nat.
Proof.
  unfold count_posts. rewrite filter_app, length_app. reflexivity.
Qed.

Lemma sleeps_app t1 t2 : sleeps (t1 ++ t2) = sleeps t1 ++ sleeps t2.
Proof.
  induction t1 as [| e t1 IH]; [reflexivity |].
  destruct e; cbn; rewrite IH; reflexivity.
Qed.

Lemma count_posts_retry_trace request retries k :
  forall i delay, count_posts (retry_trace request retries k i delay) = k.
Proof.
  induction k as [| k IH]; intros i delay; [reflexivity |].
  cbn [retry_trace]. unfold count_posts in *. cbn. rewrite IH. reflexivity.
Qed.

Lemma sleeps_retry_trace request retries k :
  forall i delay,
    sleeps (retry_trace request retries k i delay)
    = map (fun j => delay * 2 ^ Z.of_nat j) (seq 0 k).
Proof.
  induction k as [| k IH]; intros i delay; [reflexivity |].
  cbn [retry_trace sleeps seq map]. rewrite IH, <- seq_shift, map_map.
  f_equal; [cbn; lia |].
  apply map_ext. intros j. rewrite Nat2Z.inj_succ, Z.pow_succ_r by lia. ring.
Qed.

Lemma sum_doubling delay k :
  fold_right Z.add 0 (map (fun j => delay * 2 ^ Z.of_nat j) (seq 0 k))
  = delay * (2 ^ Z.of_nat k - 1).
Proof.
  induction k as [| k IH]; [cbn; lia |].
  rewrite seq_S, map_app, fold_right_app. cbn [map fold_right Nat.add].
  rewrite Nat2Z.inj_succ, Z.pow_succ_r by lia.
  assert (Hshift : forall (l : list Z) a,
             fold_right Z.add a l = fold_right Z.add 0 l + a).
  { induction l as [| x l IHl]; intros a; cbn; [lia | rewrite IHl; lia]. }
  rewrite Hshift, IH. ring.
Qed.

Lemma no_retry_shown_error request retries k :
  forall i delay e,
    In e (retry_trace request retries k i delay) ->
    match e with StError _ => False | _ => True end.
Proof.
  induction k as [| k IH]; intros i delay e H; [destruct H |].
  cbn [retry_trace] in H.
  destruct H as [<- | [<- | [<- | H]]]; try exact I.
  apply (IH _ _ _ H).
Qed.

(** ** What the envelope can raise *)

Lemma subscript_key_error v k e :
  subscript_key v k = Raise e -> subscript_error e.
Proof.
  destruct v; cbn; try (intros [= <-]; exact I).
  destruct (lookup k entries); intros [= <-]. exact I.
Qed.

Lemma subscript_index_error v i e :
  subscript_index v i = Raise e -> subscript_error e.
Proof.
  destruct v; cbn; try (intros [= <-]; exact I).
  - destruct ((_ <? 0) || _); [intros [= <-]; exact I |].
    destruct (String.get _ s); intros [= <-]. exact I.
  - destruct ((_ <? 0) || _); [intros [= <-]; exact I |].
    destruct (nth_error items _); intros [= <-]. exact I.
Qed.

Lemma envelope_text_error envelope e :
  envelope_text envelope = Raise e -> subscript_error e.
Proof.
  unfold envelope_text.
  destruct (subscript_key envelope "candidates") as [cs |] eqn:H1;
    [| intros [= <-]; eauto using subscript_key_error].
  destruct (subscript_index cs 0) as [c |] eqn:H2;
    [| intros [= <-]; eauto using subscript_index_error].
  destruct (subscript_key c "content") as [ct |] eqn:H3;
    [| intros [= <-]; eauto using subscript_key_error].
  destruct (subscript_key ct "parts") as [ps |] eqn:H4;
    [| intros [= <-]; eauto using subscript_key_error].
  destruct (subscript_index ps 0) as [p |] eqn:H5;
    [| intros [= <-]; eauto using subscript_index_error].
  apply subscript_key_error.
Qed.

Lemma missing_field_raises envelope k :
  missing_field envelope k -> envelope_text envelope = Raise (KeyError (PStr k)).
Proof.
  intros H. unfold envelope_text.
  destruct H; cbn [subscript_key];
    repeat match goal with
           | E : _ = _ |- _ => rewrite E; clear E; cbn [subscript_key]
           end;
    reflexivity.
Qed.

Example error_body_lacks_candidates :
  exists envelope,
    Json.loads error_body = Some envelope /\ missing_field envelope "candidates".
Proof.
  eexists. split; [vm_compute; reflexivity |].
  apply missing_candidates. reflexivity.
Qed.

Example blocked_body_lacks_content :
  exists envelope,
    Json.loads blocked_body = Some envelope /\ missing_field envelope "content".
Proof.
  eexists. split; [vm_compute; reflexivity |].
  eapply missing_content; reflexivity.
Qed.

Section Claims.

Context {RT : Runtime}.
Variable backend : nat -> reply.

(** A failure other than an HTTP error status ends the attempt with an
    error notice and a [return None]. *)
Lemma attempt_fatal request retries i delay n e :
  fatal_failure (backend n) e ->
  attempt backend request retries i delay n
  = ([Post MODEL_URL request; StError (CallFailed e)], S n, Ok (Returns PNone)).
Proof.
  intros H. remember (backend n) as r eqn:Hr. symmetry in Hr.
  destruct H as [| s text Hs Hj | s text envelope k Hs Hj Hm
                 | s text envelope payload_text Hs Hj He Hp].
  - apply attempt_no_reply; assumption.
  - eapply attempt_bad_body; eassumption.
  - eapply attempt_key_error; eauto using missing_field_raises.
  - eapply attempt_bad_payload; eassumption.
Qed.

(** An attempt goes on to the next one only from the retry branch. *)
Lemma attempt_continues request retries i delay n ev n' d :
  attempt backend request retries i delay n = (ev, n', Ok (Continues d)) ->
  retryable (backend n).
Proof.
  unfold attempt, catch, bind, requests_post, raise_for_status, response_json, lift.
  destruct (backend n) as [| s text] eqn:Hr; cbn; [discriminate |].
  destruct ((400 <=? s) && (s <? 600)) eqn:Hs; cbn.
  - destruct (s =? 403) eqn:H403; cbn; [discriminate |].
    intros _. exists s, text. apply andb_true_iff in Hs as [H1 H2].
    apply Z.leb_le in H1. apply Z.ltb_lt in H2. apply Z.eqb_neq in H403. auto.
  - destruct (json_loads text) as [envelope | e0] eqn:Hj; cbn.
    2: { apply json_loads_raises in Hj.
         destruct e0; cbn in *; try discriminate; contradiction. }
    destruct (envelope_text envelope) as [v | e] eqn:He; cbn.
    + destruct v; cbn; try discriminate.
      destruct (json_loads s0) as [w | e1] eqn:Hp; cbn; [discriminate |].
      apply json_loads_raises in Hp.
      destruct e1; cbn in *; try discriminate; contradiction.
    + apply envelope_text_error in He.
      destruct e; cbn in *; try discriminate; contradiction.
Qed.

(** The call is decided by the first attempt that does not end in the retry
    branch. *)
Lemma call_returns prompt img retries n k ev n' v :
  (k < Z.to_nat retries)%nat ->
  (forall j, (j < k)%nat -> retryable (backend (n + j)%nat)) ->
  attempt backend (payload prompt img) retries (Z.of_nat k) (2 ^ Z.of_nat k) (n + k)%nat
  = (ev, n', Ok (Returns v)) ->
  call_gemini_api backend prompt img retries n
  = (retry_trace (payload prompt img) retries k 0 1 ++ ev, n', Ok v).
Proof.
  intros Hk Hpre Ha. unfold call_gemini_api.
  replace (Z.to_nat retries) with (k + S (Z.to_nat retries - S k))%nat by lia.
  rewrite attempts_retry by assumption.
  cbn [attempts]. unfold bind at 1.
  rewrite Z.add_0_l, Z.mul_1_l, Ha. cbn. rewrite app_nil_r. reflexivity.
Qed.

Lemma call_raises prompt img retries n k ev n' e :
  (k < Z.to_nat retries)%nat ->
  (forall j, (j < k)%nat -> retryable (backend (n + j)%nat)) ->
  attempt backend (payload prompt img) retries (Z.of_nat k) (2 ^ Z.of_nat k) (n + k)%nat
  = (ev, n', Raise e) ->
  call_gemini_api backend prompt img retries n
  = (retry_trace (payload prompt img) retries k 0 1 ++ ev, n', Raise e).
Proof.
  intros Hk Hpre Ha. unfold call_gemini_api.
  replace (Z.to_nat retries) with (k + S (Z.to_nat retries - S k))%nat by lia.
  rewrite attempts_retry by assumption.
  cbn [attempts]. unfold bind at 1.
  rewrite Z.add_0_l, Z.mul_1_l, Ha. reflexivity.
Qed.

Lemma call_exhausted prompt img retries n :
  (forall j, (j < Z.to_nat retries)%nat -> retryable (backend (n + j)%nat)) ->
  call_gemini_api backend prompt img retries n
  = (retry_trace (payload prompt img) retries (Z.to_nat retries) 0 1
       ++ [StError MaxRetriesExceeded],
     (n + Z.to_nat retries)%nat, Ok PNone).
Proof.
  intros Hpre. unfold call_gemini_api.
  replace (Z.to_nat retries) with (Z.to_nat retries + 0)%nat at 1 by lia.
  rewrite attempts_retry by assumption. reflexivity.
Qed.

End Claims.

(** ** The claims about the inference client *)

(** C1, as amended.  When every attempt of a call is answered with an HTTP
    error status (400 to 599) other than 403, the client sends exactly
    [retries] requests, sleeps after each of them for 1, 2, 4, ... time
    units (1, 2, 4, 8, 16, in total 31, for the default of 5 attempts),
    then reports that the maximum number of retries is exceeded and
    returns [None]. *)
Theorem retries_exhausted {RT : Runtime} (backend : nat -> reply)
    (prompt img : string) (retries : Z) (n : nat) :
  0 <= retries ->
  (forall j, (j < Z.to_nat retries)%nat -> retryable (backend (n + j)%nat)) ->
  exists trace,
    call_gemini_api backend prompt img retries n
    = (trace ++ [StError MaxRetriesExceeded], (n + Z.to_nat retries)%nat, Ok PNone)
    /\ trace = retry_trace (payload prompt img) retries (Z.to_nat retries) 0 1
    /\ Z.of_nat (count_posts trace) = retries
    /\ sleeps trace = map (fun j => 2 ^ Z.of_nat j) (seq 0 (Z.to_nat retries))
    /\ total_sleep trace = 2 ^ retries - 1
    /\ (forall e, In e trace -> match e with StError _ => False | _ => True end)
    /\ (retries = 5 -> sleeps trace = [1; 2; 4; 8; 16] /\ total_sleep trace = 31).
Proof.
  intros Hr Hpre. eexists. split; [apply call_exhausted; assumption |].
  split; [reflexivity |].
  assert (Hs : sleeps (retry_trace (payload prompt img) retries (Z.to_nat retries) 0 1)
               = map (fun j => 2 ^ Z.of_nat j) (seq 0 (Z.to_nat retries))).
  { rewrite sleeps_retry_trace. apply map_ext. intros j. lia. }
  assert (Ht : total_sleep (retry_trace (payload prompt img) retries (Z.to_nat retries) 0 1)
               = 2 ^ retries - 1).
  { unfold total_sleep. rewrite sleeps_retry_trace, sum_doubling, Z2Nat.id by lia. lia. }
  split; [rewrite count_posts_retry_trace; lia |].
  split; [exact Hs |].
  split; [exact Ht |].
  split; [apply no_retry_shown_error |].
  intros ->. rewrite Hs, Ht. split; reflexivity.
Qed.

(** C2.  An attempt answered with HTTP 403, whatever its place in the
    budget, is the last event of the call but for the permission error: the
    client reports it and returns [None], without a sleep and without
    another request. *)
Theorem forbidden_returns_at_once {RT : Runtime} (backend : nat -> reply)
    (prompt img : string) (retries : Z) (n k : nat) (text : string) :
  (k < Z.to_nat retries)%nat ->
  (forall j, (j < k)%nat -> retryable (backend (n + j)%nat)) ->
  backend (n + k)%nat = Reply 403 text ->
  exists before,
    call_gemini_api backend prompt img retries n
    = (before ++ [Post MODEL_URL (payload prompt img); StError Forbidden403],
       S (n + k), Ok PNone)
    /\ before = retry_trace (payload prompt img) retries k 0 1
    /\ count_posts before = k
    /\ List.length (sleeps before) = k.
Proof.
  intros Hk Hpre H403. eexists. split; [| split; [reflexivity |]].
  - apply call_returns; [assumption | assumption |].
    eapply attempt_forbidden; eassumption.
  - split; [apply count_posts_retry_trace |].
    rewrite sleeps_retry_trace, length_map, length_seq. reflexivity.
Qed.

(** An attempt that fails with a transport failure, a body that is not
    JSON, an envelope in which a key on the way to the text is missing from
    its object, or a text payload that is not JSON, ends the call: the
    client reports the error and returns [None], and no request follows.
    An attempt is followed by another one only when it was answered with an
    HTTP error status other than 403. *)
Theorem fatal_failures_not_retried {RT : Runtime} (backend : nat -> reply)
    (prompt img : string) (retries : Z) (n k : nat) (e : exn) :
  (k < Z.to_nat retries)%nat ->
  (forall j, (j < k)%nat -> retryable (backend (n + j)%nat)) ->
  fatal_failure (backend (n + k)%nat) e ->
  call_gemini_api backend prompt img retries n
  = (retry_trace (payload prompt img) retries k 0 1
       ++ [Post MODEL_URL (payload prompt img); StError (CallFailed e)],
     S (n + k), Ok PNone)
  /\ (forall request i delay m ev m' d,
        attempt backend request retries i delay m = (ev, m', Ok (Continues d)) ->
        retryable (backend m)).
Proof.
  intros Hk Hpre Hf. split.
  - apply call_returns; [assumption | assumption |].
    apply attempt_fatal. assumption.
  - intros request i delay m ev m' d. apply attempt_continues.
Qed.

(** C3, at three envelopes that lack the expected fields.  A response with
    status 200 whose [candidates] is an empty array, whose [parts] is an
    empty array, or whose [candidates] is null, is not reported: the one
    request is followed by no error notice and no [None], and [IndexError]
    or [TypeError] leaves [call_gemini_api].  The sibling case, a candidate
    without the key [content], is reported and gives [None]. *)
Theorem missing_fields_not_reported :
  call_gemini_api (RT := Reference.runtime)
    (fun _ => Reply 200 empty_candidates_body) prompt "" 5 0%nat
  = ([Post MODEL_URL (payload prompt "")], 1%nat, Raise IndexError)
  /\ call_gemini_api (RT := Reference.runtime)
       (fun _ => Reply 200 empty_parts_body) prompt "" 5 0%nat
     = ([Post MODEL_URL (payload prompt "")], 1%nat, Raise IndexError)
  /\ call_gemini_api (RT := Reference.runtime)
       (fun _ => Reply 200 null_candidates_body) prompt "" 5 0%nat
     = ([Post MODEL_URL (payload prompt "")], 1%nat, Raise TypeError)
  /\ call_gemini_api (RT := Reference.runtime)
       (fun _ => Reply 200 blocked_body) prompt "" 5 0%nat
     = ([ Post MODEL_URL (payload prompt "");
          StError (CallFailed (KeyError (PStr "content"))) ],
        1%nat, Ok PNone).
Proof.
  repeat split; vm_compute; reflexivity.
Qed.

(** C4.  An attempt answered with a 2xx status and an envelope whose first
    candidate's first part holds a text that decodes as JSON ends the call:
    the decoded value is returned and no request follows.  In particular the
    response of the example gives the one entry for the apple, whose
    calories add up to 95. *)
Theorem success_returns_parsed :
  (forall (RT : Runtime) (backend : nat -> reply) (prompt img : string)
          (retries : Z) (n k : nat) (s : Z) (text : string)
          (envelope : pyval) (payload_text : string) (v : pyval),
      (k < Z.to_nat retries)%nat ->
      (forall j, (j < k)%nat -> retryable (backend (n + j)%nat)) ->
      backend (n + k)%nat = Reply s text ->
      200 <= s < 300 ->
      json_loads text = Ok envelope ->
      envelope_text envelope = Ok (PStr payload_text) ->
      json_loads payload_text = Ok v ->
      call_gemini_api backend prompt img retries n
      = (retry_trace (payload prompt img) retries k 0 1
           ++ [Post MODEL_URL (payload prompt img)],
         S (n + k), Ok v))
  /\ (forall img : string,
        call_gemini_api (RT := Reference.runtime) (fun _ => Reply 200 apple_body)
          prompt img 5 0%nat
        = ([Post MODEL_URL (payload prompt img)], 1%nat, Ok apple_result))
  /\ total_calories (RT := Reference.runtime) apple_result = Ok (PInt 95).
Proof.
  assert (G : forall (RT : Runtime) backend prompt img retries n k s text
                     envelope payload_text v,
             (k < Z.to_nat retries)%nat ->
             (forall j, (j < k)%nat -> retryable (backend (n + j)%nat)) ->
             backend (n + k)%nat = Reply s text ->
             200 <= s < 300 ->
             json_loads text = Ok envelope ->
             envelope_text envelope = Ok (PStr payload_text) ->
             json_loads payload_text = Ok v ->
             call_gemini_api backend prompt img retries n
             = (retry_trace (payload prompt img) retries k 0 1
                  ++ [Post MODEL_URL (payload prompt img)],
                S (n + k), Ok v)).
  { intros RT backend prompt img retries n k s text envelope payload_text v
           Hk Hpre Hr Hs Hj He Hp.
    apply call_returns; [assumption | assumption |].
    eapply attempt_success; try eassumption. lia. }
  split; [exact G |]. split; [| reflexivity].
  intros img.
  apply (G Reference.runtime (fun _ => Reply 200 apple_body) prompt img 5
           0%nat 0%nat 200 apple_body
           (PDict [("candidates",
                    PList [PDict [("content",
                      PDict [("parts",
                        PList [PDict [("text",
                          PStr (dq "[{'food_item':'Apple','calories':95}]"))]])])]])])
           (dq "[{'food_item':'Apple','calories':95}]") apple_result).
  - cbn. lia.
  - intros j Hj. lia.
  - reflexivity.
  - lia.
  - vm_compute. reflexivity.
  - reflexivity.
  - vm_compute. reflexivity.
Qed.

(** ** The caller *)

Section CallerFacts.

Context {RT : Runtime}.
Variable backend : nat -> reply.

(** One attempt sends one request, shows nothing of the breakdown, and
    returns either [None] or the decoded payload of its response. *)
Lemma attempt_inv request retries i delay n ev n' r :
  attempt backend request retries i delay n = (ev, n', r) ->
  n' = S n
  /\ filter is_breakdown ev = []
  /\ (forall v, r = Ok (Returns v) -> v = PNone \/ decoded_from (backend n) v).
Proof.
  unfold attempt, catch, bind, requests_post, raise_for_status, response_json, lift.
  destruct (backend n) as [| s text] eqn:Hr; cbn.
  { intros [= <- <- <-]. repeat split. intros v [= <-]. left; reflexivity. }
  destruct ((400 <=? s) && (s <? 600)) eqn:Hs; cbn.
  { destruct (s =? 403); cbn; intros [= <- <- <-]; repeat split.
    - intros v [= <-]. left; reflexivity.
    - intros v [=]. }
  destruct (json_loads text) as [envelope | e0] eqn:Hj; cbn.
  2: { apply json_loads_raises in Hj.
       destruct e0; cbn in *; try contradiction;
         intros [= <- <- <-]; repeat split; intros v [=]; subst; left; reflexivity. }
  destruct (envelope_text envelope) as [x | e] eqn:He; cbn.
  - destruct x; cbn; try (intros [= <- <- <-]; repeat split; intros v [=]).
    destruct (json_loads s0) as [w | e1] eqn:Hp; cbn.
    + intros [= <- <- <-]; repeat split.
      intros v [= <-]. right. exists s, text, envelope, s0. auto.
    + apply json_loads_raises in Hp.
      destruct e1; cbn in *; try contradiction;
        intros [= <- <- <-]; repeat split; intros v [=]; subst; left; reflexivity.
  - apply envelope_text_error in He.
    destruct e; cbn in *; try contradiction;
      intros [= <- <- <-]; repeat split; intros v [=]; subst; left; reflexivity.
Qed.

(** A call shows nothing of the breakdown, and what it returns is [None]
    or the decoded payload of the last response. *)
Lemma attempts_inv request retries todo :
  forall i delay n trace n' v,
    attempts backend request retries todo i delay n = (trace, n', Ok v) ->
    filter is_breakdown trace = []
    /\ (v = PNone \/ exists m, n' = S m /\ decoded_from (backend m) v).
Proof.
  induction todo as [| todo IH]; intros i delay n trace n' v.
  - cbn. intros [= <- <- <-]. split; [reflexivity | left; reflexivity].
  - cbn [attempts]. unfold bind at 1.
    destruct (attempt backend request retries i delay n) as [[ev n1] r] eqn:Ha.
    destruct (attempt_inv _ _ _ _ _ _ _ _ Ha) as (-> & Hev & Hv).
    destruct r as [f | e]; [| discriminate].
    destruct f as [w | delay'].
    + cbn. rewrite app_nil_r. intros [= <- <- <-].
      split; [exact Hev |].
      destruct (Hv w eq_refl) as [-> | Hd]; [left; reflexivity | right; eauto].
    + destruct (attempts backend request retries todo (i + 1) delay' (S n))
        as [[ev2 n2] r2] eqn:Hrest.
      intros [= <- <- ->].
      destruct (IH _ _ _ _ _ _ Hrest) as [Hev2 Hd].
      split; [| exact Hd].
      rewrite filter_app, Hev, Hev2. reflexivity.
Qed.

(** The block under the spinner, once the image is encoded and the call
    has returned. *)
Lemma estimate_calories_run img buffered n ct n' v :
  save_jpeg img = Some buffered ->
  call_gemini_api backend prompt (b64encode buffered) 5 n = (ct, n', Ok v) ->
  estimate_calories backend img n
  = if truthy v then
      match (if table_accepts v then total_calories v else Raise TableError) with
      | Ok total =>
          (StSpinner "Analyzing image..." :: ct
             ++ [StSuccess AnalysisComplete; StSubheader "Calorie Breakdown";
                 StTable v; StHeader (TotalEstimated total)],
           n', Ok tt)
      | Raise e =>
          (StSpinner "Analyzing image..." :: ct
             ++ [StSuccess AnalysisComplete; StSubheader "Calorie Breakdown";
                 StTable v],
           n', Raise e)
      end
    else (StSpinner "Analyzing image..." :: ct, n', Ok tt).
Proof.
  intros Hs Hc.
  unfold estimate_calories, image_to_base64, st_table, bind, emit, lift.
  rewrite Hs, Hc. cbn.
  destruct (truthy v); cbn; [| rewrite app_nil_r; reflexivity].
  destruct (table_accepts v); cbn; [| reflexivity].
  destruct (total_calories v); reflexivity.
Qed.

Lemma estimate_calories_raises img buffered n ct n' e :
  save_jpeg img = Some buffered ->
  call_gemini_api backend prompt (b64encode buffered) 5 n = (ct, n', Raise e) ->
  estimate_calories backend img n
  = (StSpinner "Analyzing image..." :: ct, n', Raise e).
Proof.
  intros Hs Hc. unfold estimate_calories, image_to_base64, bind, emit, lift.
  rewrite Hs, Hc. reflexivity.
Qed.

End CallerFacts.

(** ** The claims about the caller *)

(** With any decoder, an envelope whose [candidates] array is empty takes
    the attempt out of the loop by [IndexError], with no notice. *)
Lemma empty_candidates_escape {RT : Runtime} (backend : nat -> reply)
    prompt img retries n k s text d :
  (k < Z.to_nat retries)%nat ->
  (forall j, (j < k)%nat -> retryable (backend (n + j)%nat)) ->
  backend (n + k)%nat = Reply s text ->
  ~ 400 <= s < 600 ->
  json_loads text = Ok (PDict d) ->
  lookup "candidates" d = Some (PList []) ->
  call_gemini_api backend prompt img retries n
  = (retry_trace (payload prompt img) retries k 0 1
       ++ [Post MODEL_URL (payload prompt img)],
     S (n + k), Raise IndexError).
Proof.
  intros Hk Hpre Hr Hs Hj Hc.
  apply call_raises; [assumption | assumption |].
  eapply attempt_escapes; try eassumption; [| left; reflexivity].
  unfold envelope_text. cbn [subscript_key]. rewrite Hc. reflexivity.
Qed.

(** C5, at two inputs the page can receive.  A response whose [candidates]
    array is empty raises [IndexError] out of [call_gemini_api] and out of
    the script, with nothing shown after the spinner; so does [OSError]
    when the upload cannot be written as JPEG. *)
Theorem uncaught_failures :
  script (RT := Reference.runtime) (fun _ => Reply 200 empty_candidates_body)
    (Some (Reference.Photo meal)) true 0%nat
  = (opening "/9gQIDD/2Q==", 1%nat, Raise IndexError)
  /\ image_to_base64 (RT := Reference.runtime) meal = Ok "/9gQIDD/2Q=="
  /\ script (RT := Reference.runtime) (fun _ => Reply 200 apple_body)
       (Some (Reference.Photo cutout)) true 0%nat
     = ([ StPageConfig;
          StTitle "Food Calorie Estimator";
          StMarkdown "Upload a picture of a meal to get a calorie estimate.";
          StFileUploader "Choose an image...";
          StImage;
          StButton "Estimate Calories";
          StSpinner "Analyzing image..." ],
        0%nat, Raise OSError).
Proof.
  repeat split; vm_compute; reflexivity.
Qed.

(** Past entries with integer calories, the sum that the script computes
    goes on from their total. *)
Lemma sum_from_app {RT : Runtime} (good rest : list pyval) :
  Forall integer_calories good ->
  exists total,
    TotalCalories good = Some total
    /\ forall acc, sum_from acc (good ++ rest) = sum_from (acc + total) rest.
Proof.
  induction 1 as [| entry good (d & -> & Hc) _ (t & Ht & IH)].
  - exists 0. split; [reflexivity |]. intros acc. rewrite Z.add_0_r. reflexivity.
  - destruct Hc as [Hc | (c & Hc)].
    + exists (0 + t). split; [cbn; rewrite Hc, Ht; reflexivity |].
      intros acc. cbn [app sum_from get_calories]. rewrite Hc, IH. f_equal. lia.
    + exists (c + t). split; [cbn; rewrite Hc, Ht; reflexivity |].
      intros acc. cbn [app sum_from get_calories]. rewrite Hc, IH. f_equal. lia.
Qed.

Lemma sum_from_integers {RT : Runtime} (entries : list pyval) :
  Forall integer_calories entries ->
  exists total,
    TotalCalories entries = Some total
    /\ forall acc, sum_from acc entries = Ok (PInt (acc + total)).
Proof.
  intros H. destruct (sum_from_app entries [] H) as (total & Ht & Hs).
  exists total. split; [exact Ht |].
  intros acc. rewrite <- (app_nil_r entries), Hs. reflexivity.
Qed.


(** C9.  When the attempt that succeeds carries a text payload that decodes
    to the empty list, the block under the spinner ends with that request:
    no banner, no table, no total, and no warning or error either.  With the
    payload [[]] a whole run of the script shows the page, the picture and
    the spinner, sends one request, and shows nothing more. *)
Theorem empty_result_is_silent :
  (forall (RT : Runtime) (backend : nat -> reply) (img : image)
          (buffered : list byte) (n k : nat) (s : Z) (text : string)
          (envelope : pyval) (payload_text : string),
      save_jpeg img = Some buffered ->
      (k < 5)%nat ->
      (forall j, (j < k)%nat -> retryable (backend (n + j)%nat)) ->
      backend (n + k)%nat = Reply s text ->
      200 <= s < 300 ->
      json_loads text = Ok envelope ->
      envelope_text envelope = Ok (PStr payload_text) ->
      json_loads payload_text = Ok (PList []) ->
      estimate_calories backend img n
      = (StSpinner "Analyzing image..."
           :: retry_trace (payload prompt (b64encode buffered)) 5 k 0 1
           ++ [Post MODEL_URL (payload prompt (b64encode buffered))],
         S (n + k), Ok tt))
  /\ Json.loads "[]" = Some (PList [])
  /\ script (RT := Reference.runtime) (fun _ => Reply 200 empty_body)
       (Some (Reference.Photo meal)) true 0%nat
     = (opening "/9gQIDD/2Q==", 1%nat, Ok tt).
Proof.
  split; [| split; vm_compute; reflexivity].
  intros RT backend img buffered n k s text envelope payload_text
         Hs Hk Hpre Hr Hst Hj He Hp.
  erewrite estimate_calories_run; [| eassumption |].
  2: { apply call_returns; [exact Hk | exact Hpre |].
       eapply attempt_success; try eassumption. lia. }
  reflexivity.
Qed.

(** C10.  Whatever value the text payload of the successful response
    decodes to, the table shows that very value when it is true: nothing
    checks its entries.  So a response with a negative calorie count and an
    empty label goes through unchanged, and the total shown is negative. *)
Theorem values_are_not_validated :
  (forall (RT : Runtime) (backend : nat -> reply) (img : image)
          (buffered : list byte) (n k : nat) (s : Z) (text : string)
          (envelope : pyval) (payload_text : string) (v : pyval),
      save_jpeg img = Some buffered ->
      (k < 5)%nat ->
      (forall j, (j < k)%nat -> retryable (backend (n + j)%nat)) ->
      backend (n + k)%nat = Reply s text ->
      200 <= s < 300 ->
      json_loads text = Ok envelope ->
      envelope_text envelope = Ok (PStr payload_text) ->
      json_loads payload_text = Ok v ->
      truthy v = true ->
      exists shown r,
        estimate_calories backend img n
        = (StSpinner "Analyzing image..."
             :: (retry_trace (payload prompt (b64encode buffered)) 5 k 0 1
                   ++ [Post MODEL_URL (payload prompt (b64encode buffered))])
             ++ StSuccess AnalysisComplete :: StSubheader "Calorie Breakdown"
             :: StTable v :: shown,
           S (n + k), r))
  /\ script (RT := Reference.runtime) (fun _ => Reply 200 negative_body)
       (Some (Reference.Photo meal)) true 0%nat
     = (opening "/9gQIDD/2Q=="
          ++ [ StSuccess AnalysisComplete;
               StSubheader "Calorie Breakdown";
               StTable (PList negative_entries);
               StHeader (TotalEstimated (PInt (-100))) ],
        1%nat, Ok tt)
  /\ -100 < 0
  /\ In (PDict [("food_item", PStr ""); ("calories", PInt (-120))]) negative_entries
  /\ forallb schema_valid negative_entries = true.
Proof.
  split.
  - intros RT backend img buffered n k s text envelope payload_text v
           Hs Hk Hpre Hr Hst Hj He Hp Ht.
    erewrite estimate_calories_run; [| eassumption |].
    2: { apply call_returns; [exact Hk | exact Hpre |].
         eapply attempt_success; try eassumption. lia. }
    rewrite Ht.
    destruct (if table_accepts v then total_calories v else Raise TableError); eauto.
  - split; [vm_compute; reflexivity |].
    split; [lia |]. split; [left; reflexivity | reflexivity].
Qed.

(** ** Further properties of the loop *)

Lemma attempt_one_post {RT : Runtime} (backend : nat -> reply)
    request retries i delay n ev n' r :
  attempt backend request retries i delay n = (ev, n', r) ->
  count_posts ev = 1%nat.
Proof.
  unfold attempt, catch, bind, requests_post, raise_for_status, response_json, lift.
  destruct (backend n) as [| s text]; cbn; [intros [= <- _ _]; reflexivity |].
  destruct ((400 <=? s) && (s <? 600)); cbn.
  { destruct (s =? 403); cbn; intros [= <- _ _]; reflexivity. }
  assert (Hh : forall e n0 ev0 n1 r0,
             (let '(ev', n'', r1) :=
                match e with
                | HTTPError status_code =>
                    if status_code =? 403
                    then st_error Forbidden403 ;;; ret (Returns PNone)
                    else st_warning (Retrying delay (i + 1) retries) ;;;
                         time_sleep delay ;;; ret (Continues (delay * 2))
                | RequestException | JSONDecodeError | KeyError _ =>
                    st_error (CallFailed e) ;;; ret (Returns PNone)
                | _ => raise e
                end n0 in
              ([Post MODEL_URL request] ++ ev', n'', r1)) = (ev0, n1, r0) ->
             count_posts ev0 = 1%nat).
  { intros e n0 ev0 n1 r0.
    destruct e; cbn; try destruct (status_code =? 403); cbn;
      intros [= <- _ _]; reflexivity. }
  destruct (json_loads text) as [envelope | e0]; cbn; [| apply Hh].
  destruct (envelope_text envelope) as [x | e]; cbn; [| apply Hh].
  destruct x; cbn; try (intros [= <- _ _]; reflexivity).
  destruct (json_loads s0); cbn; [intros [= <- _ _]; reflexivity | apply Hh].
Qed.

(** After four answers with status 500, the fifth attempt succeeds: the
    call returns the decoded entries, having slept 1, 2, 4 and 8 time units,
    15 in all. *)
Theorem recovers_on_fifth_attempt :
  exists trace,
    call_gemini_api (RT := Reference.runtime) recovering prompt "" 5 0%nat
    = (trace, 5%nat, Ok apple_result)
    /\ count_posts trace = 5%nat
    /\ sleeps trace = [1; 2; 4; 8]
    /\ total_sleep trace = 15
    /\ filter is_shown trace
       = [ StWarning (Retrying 1 1 5); StWarning (Retrying 2 2 5);
           StWarning (Retrying 4 3 5); StWarning (Retrying 8 4 5) ].
Proof.
  eexists. split; [vm_compute; reflexivity |].
  repeat split.
Qed.

(** ** Counterexamples to the claims as first stated *)

(** C1 as stated fails at the status 304: it is neither 403 nor 2xx, yet
    [raise_for_status] lets it through, the empty body is not JSON, and the
    call ends after one request, with no sleep and without the report that
    the retries are exceeded. *)
Lemma non_error_status_not_retried :
  (forall j : nat,
      exists s text,
        (fun _ : nat => Reply 304 "") j = Reply s text
        /\ s <> 403 /\ ~ 200 <= s < 300)
  /\ call_gemini_api (RT := Reference.runtime) (fun _ => Reply 304 "") prompt "" 5 0%nat
     = ([Post MODEL_URL (payload prompt ""); StError (CallFailed JSONDecodeError)],
        1%nat, Ok PNone)
  /\ count_posts
       [Post MODEL_URL (payload prompt ""); StError (CallFailed JSONDecodeError)]
     = 1%nat
  /\ sleeps [Post MODEL_URL (payload prompt ""); StError (CallFailed JSONDecodeError)]
     = [].
Proof.
  split.
  - intros j. exists 304, "". split; [reflexivity |]. split; lia.
  - split; [vm_compute; reflexivity |]. split; reflexivity.
Qed.

(** C6 as stated fails at a payload whose second entry has neither field of
    the schema: the call returns the two entries, the table shows both and
    the total is computed. *)
Lemma unvalidated_entries_surface :
  call_gemini_api (RT := Reference.runtime) (fun _ => Reply 200 mixed_body)
    prompt "/9gQIDD/2Q==" 5 0%nat
  = ([Post MODEL_URL (payload prompt "/9gQIDD/2Q==")], 1%nat, Ok (PList mixed_entries))
  /\ forallb schema_valid mixed_entries = false
  /\ script (RT := Reference.runtime) (fun _ => Reply 200 mixed_body)
       (Some (Reference.Photo meal)) true 0%nat
     = (opening "/9gQIDD/2Q=="
          ++ [ StSuccess AnalysisComplete;
               StSubheader "Calorie Breakdown";
               StTable (PList mixed_entries);
               StHeader (TotalEstimated (PInt 95)) ],
        1%nat, Ok tt).
Proof.
  repeat split; vm_compute; reflexivity.
Qed.


(** ** The theorems at concrete inputs *)

(** Five answers with status 500. *)
Lemma retries_exhausted_witness :
  0 <= 5
  /\ (forall j, (j < Z.to_nat 5)%nat ->
        retryable ((fun _ : nat => Reply 500 "") (0 + j)%nat))
  /\ exists trace,
       call_gemini_api (RT := Reference.runtime) (fun _ => Reply 500 "") prompt "" 5 0%nat
       = (trace ++ [StError MaxRetriesExceeded], 5%nat, Ok PNone)
       /\ Z.of_nat (count_posts trace) = 5
       /\ sleeps trace = [1; 2; 4; 8; 16]
       /\ total_sleep trace = 31.
Proof.
  assert (H0 : 0 <= 5) by lia.
  assert (H1 : forall j, (j < Z.to_nat 5)%nat ->
                         retryable ((fun _ : nat => Reply 500 "") (0 + j)%nat)).
  { intros j _. exists 500, "". split; [reflexivity |]. split; lia. }
  split; [exact H0 |]. split; [exact H1 |].
  destruct (retries_exhausted (RT := Reference.runtime) (fun _ => Reply 500 "")
              prompt "" 5 0%nat H0 H1)
    as (trace & Hcall & _ & Hposts & _ & _ & _ & Hfive).
  destruct (Hfive eq_refl) as [Hsleeps Htotal].
  exists trace. auto.
Defined.

(** A 403 on the first attempt. *)
Lemma forbidden_returns_at_once_witness :
  (0 < Z.to_nat 5)%nat
  /\ call_gemini_api (RT := Reference.runtime) (fun _ => Reply 403 "") prompt "" 5 0%nat
     = ([Post MODEL_URL (payload prompt ""); StError Forbidden403], 1%nat, Ok PNone).
Proof.
  assert (H0 : (0 < Z.to_nat 5)%nat) by (cbn; lia).
  split; [exact H0 |].
  destruct (forbidden_returns_at_once (RT := Reference.runtime)
              (fun _ => Reply 403 "") prompt "" 5 0%nat 0%nat "" H0
              (fun j Hj => match Nat.nlt_0_r j Hj with end) eq_refl)
    as (before & Hcall & -> & _).
  exact Hcall.
Defined.

(** A 200 whose body is a page of HTML. *)
Lemma fatal_failures_not_retried_witness :
  (0 < Z.to_nat 5)%nat
  /\ fatal_failure (RT := Reference.runtime) (Reply 200 "<html>") JSONDecodeError
  /\ call_gemini_api (RT := Reference.runtime) (fun _ => Reply 200 "<html>") prompt "" 5
       0%nat
     = ([Post MODEL_URL (payload prompt ""); StError (CallFailed JSONDecodeError)],
        1%nat, Ok PNone).
Proof.
  assert (H0 : (0 < Z.to_nat 5)%nat) by (cbn; lia).
  assert (H1 : fatal_failure (RT := Reference.runtime) (Reply 200 "<html>")
                 JSONDecodeError).
  { apply malformed_body; [lia | vm_compute; reflexivity]. }
  split; [exact H0 |]. split; [exact H1 |].
  exact (proj1 (fatal_failures_not_retried (RT := Reference.runtime)
                  (fun _ => Reply 200 "<html>") prompt "" 5 0%nat 0%nat
                  JSONDecodeError H0
                  (fun j Hj => match Nat.nlt_0_r j Hj with end) H1)).
Defined.

(** The response of the example on the first attempt. *)
Lemma success_returns_parsed_witness :
  @json_loads Reference.runtime (dq "[{'food_item':'Apple','calories':95}]")
  = Ok apple_result
  /\ call_gemini_api (RT := Reference.runtime) (fun _ => Reply 200 apple_body)
       prompt "" 5 0%nat
     = ([Post MODEL_URL (payload prompt "")], 1%nat, Ok apple_result).
Proof.
  assert (Hp : @json_loads Reference.runtime
                 (dq "[{'food_item':'Apple','calories':95}]")
               = Ok apple_result) by (vm_compute; reflexivity).
  split; [exact Hp |].
  refine (proj1 success_returns_parsed Reference.runtime
            (fun _ => Reply 200 apple_body) prompt "" 5 0%nat 0%nat 200 apple_body
            _ (dq "[{'food_item':'Apple','calories':95}]") apple_result
            _ (fun j Hj => match Nat.nlt_0_r j Hj with end) eq_refl _ _ _ Hp).
  - cbn; lia.
  - lia.
  - vm_compute. reflexivity.
  - reflexivity.
Defined.


(** The payload [[]] on the first attempt. *)
Lemma empty_result_is_silent_witness :
  @json_loads Reference.runtime "[]" = Ok (PList [])
  /\ estimate_calories (RT := Reference.runtime) (fun _ => Reply 200 empty_body) meal
       0%nat
     = ([ StSpinner "Analyzing image...";
          Post MODEL_URL (payload prompt "/9gQIDD/2Q==") ],
        1%nat, Ok tt).
Proof.
  assert (Hp : @json_loads Reference.runtime "[]" = Ok (PList []))
    by (vm_compute; reflexivity).
  split; [exact Hp |].
  refine (proj1 empty_result_is_silent Reference.runtime
            (fun _ => Reply 200 empty_body) meal _ 0%nat 0%nat 200 empty_body
            _ "[]" eq_refl _ (fun j Hj => match Nat.nlt_0_r j Hj with end)
            eq_refl _ _ _ Hp).
  - lia.
  - lia.
  - vm_compute. reflexivity.
  - reflexivity.
Defined.

(** The payload with a negative count on the first attempt. *)
Lemma values_are_not_validated_witness :
  truthy (PList negative_entries) = true
  /\ exists shown r,
       estimate_calories (RT := Reference.runtime) (fun _ => Reply 200 negative_body)
         meal 0%nat
       = (StSpinner "Analyzing image..."
            :: ([] ++ [Post MODEL_URL (payload prompt "/9gQIDD/2Q==")])
            ++ StSuccess AnalysisComplete :: StSubheader "Calorie Breakdown"
            :: StTable (PList negative_entries) :: shown,
          1%nat, r).
Proof.
  split; [reflexivity |].
  refine (proj1 values_are_not_validated Reference.runtime
            (fun _ => Reply 200 negative_body) meal _ 0%nat 0%nat 200 negative_body
            _ _ (PList negative_entries) eq_refl _
            (fun j Hj => match Nat.nlt_0_r j Hj with end) eq_refl _ _ _ _ eq_refl).
  - lia.
  - lia.
  - vm_compute. reflexivity.
  - reflexivity.
  - vm_compute. reflexivity.
Defined.

(** ** The shape of every call *)

Section Shape.

Context {RT : Runtime}.
Variable backend : nat -> reply.

Lemma retryable_status s text :
  retryable (Reply s text)
  <-> (400 <=? s) && (s <? 600) = true /\ (s =? 403) = false.
Proof.
  rewrite andb_true_iff, Z.leb_le, Z.ltb_lt, Z.eqb_neq. split.
  - intros (s' & text' & [= <- <-] & Hs & H403). auto.
  - intros [Hs H403]. exists s, text. auto.
Qed.

(** An attempt either takes the retry branch, on a retryable reply, or ends
    the loop in one of the ways of [last_attempt]. *)
Lemma attempt_cases request retries i delay n :
  (retryable (backend n)
   /\ attempt backend request retries i delay n
      = ([Post MODEL_URL request; StWarning (Retrying delay (i + 1) retries);
          Sleep delay],
         S n, Ok (Continues (delay * 2))))
  \/ (~ retryable (backend n)
      /\ exists ending r,
           last_attempt request (backend n) ending r
           /\ attempt backend request retries i delay n
              = (ending, S n,
                 match r with
                 | Ok v => Ok (Returns v)
                 | Raise e => Raise e
                 end)).
Proof.
  destruct (backend n) as [| s text] eqn:Hr.
  { right. split; [intros (? & ? & [=] & _) |].
    do 2 eexists. split; [apply (last_failed _ _ RequestException I) |].
    apply attempt_no_reply. exact Hr. }
  destruct ((400 <=? s) && (s <? 600)) eqn:Hs.
  { destruct (s =? 403) eqn:H403.
    - right. split; [rewrite retryable_status; intros [_ H]; congruence |].
      apply Z.eqb_eq in H403. subst s.
      do 2 eexists. split; [eapply last_forbidden; reflexivity |].
      eapply attempt_forbidden. exact Hr.
    - left. assert (H : retryable (Reply s text)) by (apply retryable_status; auto).
      split; [exact H |]. apply attempt_retry. rewrite Hr. exact H. }
  right. split; [rewrite retryable_status; intros [H _]; congruence |].
  assert (Hs' : ~ 400 <= s < 600).
  { intros [H1 H2]. apply andb_false_iff in Hs as [Hs | Hs];
      [apply Z.leb_gt in Hs | apply Z.ltb_ge in Hs]; lia. }
  destruct (json_loads text) as [envelope | e0] eqn:Hj.
  2: { pose proof (json_loads_raises _ _ Hj) as Hd.
       destruct e0; cbn in Hd; try contradiction.
       - do 2 eexists. split; [apply (last_failed _ _ JSONDecodeError I) |].
         eapply attempt_bad_body; eassumption.
       - do 2 eexists. split; [apply (last_refused _ _ ValueError); auto |].
         eapply attempt_body_refused; eauto.
       - do 2 eexists. split; [apply (last_refused _ _ RecursionError); auto |].
         eapply attempt_body_refused; eauto. }
  destruct (envelope_text envelope) as [x | e] eqn:He.
  - destruct x as [| b | z | f | payload_text | l | d];
      try (do 2 eexists; split; [apply (last_escaped _ _ TypeError); auto |];
           unfold attempt, catch, bind, requests_post, raise_for_status,
             response_json, lift;
           rewrite Hr; cbn; rewrite Hs; cbn; rewrite Hj; cbn; rewrite He;
           reflexivity).
    destruct (json_loads payload_text) as [v | e1] eqn:Hp.
    + do 2 eexists. split.
      * apply (last_success _ _ v). exists s, text, envelope, payload_text. auto.
      * eapply attempt_success; eassumption.
    + pose proof (json_loads_raises _ _ Hp) as Hd.
      destruct e1; cbn in Hd; try contradiction.
      * do 2 eexists. split; [apply (last_failed _ _ JSONDecodeError I) |].
        eapply attempt_bad_payload; eassumption.
      * do 2 eexists. split; [apply (last_refused _ _ ValueError); auto |].
        eapply attempt_payload_refused; eauto.
      * do 2 eexists. split; [apply (last_refused _ _ RecursionError); auto |].
        eapply attempt_payload_refused; eauto.
  - pose proof (envelope_text_error _ _ He) as Hk.
    destruct e; cbn in Hk; try contradiction.
    + do 2 eexists. split; [apply (last_failed _ _ (KeyError key) I) |].
      eapply attempt_key_error; eassumption.
    + do 2 eexists. split; [apply (last_escaped _ _ IndexError); auto |].
      eapply attempt_escapes; eauto.
    + do 2 eexists. split; [apply (last_escaped _ _ TypeError); auto |].
      eapply attempt_escapes; eauto.
Qed.

(** One iteration of the loop, spelled out. *)
Lemma attempts_step request retries todo i delay n :
  attempts backend request retries (S todo) i delay n
  = let '(ev, n1, r1) := attempt backend request retries i delay n in
    match r1 with
    | Ok (Returns v) => (ev, n1, Ok v)
    | Ok (Continues delay') =>
        let '(ev2, n2, r2) :=
          attempts backend request retries todo (i + 1) delay' n1 in
        (ev ++ ev2, n2, r2)
    | Raise e => (ev, n1, Raise e)
    end.
Proof.
  cbn [attempts]. unfold bind.
  destruct (attempt backend request retries i delay n) as [[ev n1] [f | e]];
    [| reflexivity].
  destruct f; cbn; rewrite ?app_nil_r; reflexivity.
Qed.

(** The loop from any index and delay: [k] retried attempts on the first
    [k] replies, all retryable, and then either the budget is used up or
    the next reply, which is not retryable, ends the loop. *)
Lemma attempts_shape request retries todo :
  forall i delay n,
  exists k,
    (k <= todo)%nat
    /\ (forall j, (j < k)%nat -> retryable (backend (n + j)%nat))
    /\ ((k = todo
         /\ attempts backend request retries todo i delay n
            = (retry_trace request retries k i delay ++ [StError MaxRetriesExceeded],
               (n + k)%nat, Ok PNone))
        \/ ((k < todo)%nat
            /\ ~ retryable (backend (n + k)%nat)
            /\ exists ending r,
                 last_attempt request (backend (n + k)%nat) ending r
                 /\ attempts backend request retries todo i delay n
                    = (retry_trace request retries k i delay ++ ending,
                       S (n + k), r))).
Proof.
  induction todo as [| todo IH]; intros i delay n.
  - exists 0%nat. split; [lia |]. split; [intros j Hj; lia |].
    left. split; [reflexivity |]. rewrite Nat.add_0_r. reflexivity.
  - rewrite attempts_step.
    destruct (attempt_cases request retries i delay n)
      as [[Hre Ha] | (Hnot & ending & r & Hlast & Ha)]; rewrite Ha.
    + destruct (IH (i + 1) (delay * 2) (S n)) as (k & Hk & Hpre & Hend).
      exists (S k). split; [lia |]. split.
      { intros [| j] Hj; [rewrite Nat.add_0_r; exact Hre |].
        replace (n + S j)%nat with (S n + j)%nat by lia. apply Hpre. lia. }
      replace (n + S k)%nat with (S n + k)%nat by lia.
      destruct Hend as [[-> Hrun] | (Hlt & Hnot & ending & r & Hlast & Hrun)];
        rewrite Hrun.
      * left. split; reflexivity.
      * right. split; [lia |]. split; [exact Hnot |].
        exists ending, r. split; [exact Hlast | reflexivity].
    + exists 0%nat. split; [lia |]. split; [intros j Hj; lia |].
      right. split; [lia |]. rewrite Nat.add_0_r. split; [exact Hnot |].
      exists ending, r. split; [exact Hlast |].
      destruct r; reflexivity.
Qed.


Lemma retry_trace_posts request retries k :
  forall i delay,
    filter is_post (retry_trace request retries k i delay)
    = repeat (Post MODEL_URL request) k.
Proof.
  induction k as [| k IH]; intros i delay; [reflexivity |].
  cbn. rewrite IH. reflexivity.
Qed.

Lemma retry_trace_no_upload_first request retries k :
  forall i delay,
    existsb is_upload_first (retry_trace request retries k i delay) = false.
Proof.
  induction k as [| k IH]; intros i delay; [reflexivity |].
  cbn. apply IH.
Qed.

Lemma last_attempt_events request r ending res :
  last_attempt request r ending res ->
  sleeps ending = []
  /\ filter is_post ending = [Post MODEL_URL request]
  /\ existsb is_upload_first ending = false
  /\ filter is_breakdown ending = [].
Proof.
  destruct 1; repeat split.
Qed.

End Shape.

(** The count of requests grows by the [Post] events of the trace. *)
Lemma requests_count {RT : Runtime} (backend : nat -> reply)
    (prompt img : string) (retries : Z) (n : nat) :
  (count_of (call_gemini_api backend prompt img retries n)
   = n + count_posts (trace_of (call_gemini_api backend prompt img retries n)))%nat.
Proof.
  destruct (attempts_shape backend (payload prompt img) retries (Z.to_nat retries)
              0 1 n) as (k & _ & _ & Hend).
  unfold call_gemini_api.
  destruct Hend as [[_ Hrun] | (_ & _ & ending & r & Hlast & Hrun)];
    rewrite Hrun; cbn [trace_of count_of fst snd];
    rewrite count_posts_app, count_posts_retry_trace.
  - cbn. lia.
  - destruct (last_attempt_events _ _ _ _ Hlast) as (_ & Hp & _).
    unfold count_posts. rewrite Hp. cbn. lia.
Qed.

(** ** Properties of every call *)

(** However the backend answers, a call goes through some number [k] of
    retried attempts, on replies that are all HTTP errors other than 403,
    and then ends in one of six ways: the budget is used up, or the next
    reply, which is not such an error, is a 403, a caught failure, a decoded
    payload, or raises an exception that no clause names: [IndexError] or
    [TypeError] while the envelope is read, [ValueError] or [RecursionError]
    in the decoder. *)
Theorem call_outcomes {RT : Runtime} (backend : nat -> reply)
    (prompt img : string) (retries : Z) (n : nat) :
  exists k,
    (k <= Z.to_nat retries)%nat
    /\ (forall j, (j < k)%nat -> retryable (backend (n + j)%nat))
    /\ ((k = Z.to_nat retries
         /\ call_gemini_api backend prompt img retries n
            = (retry_trace (payload prompt img) retries k 0 1
                 ++ [StError MaxRetriesExceeded],
               (n + k)%nat, Ok PNone))
        \/ ((k < Z.to_nat retries)%nat
            /\ ~ retryable (backend (n + k)%nat)
            /\ exists ending r,
                 last_attempt (payload prompt img) (backend (n + k)%nat) ending r
                 /\ call_gemini_api backend prompt img retries n
                    = (retry_trace (payload prompt img) retries k 0 1 ++ ending,
                       S (n + k), r))).
Proof.
  apply attempts_shape.
Qed.

(** The sleeps and the requests of a call, counted. *)
Lemma call_schedule {RT : Runtime} (backend : nat -> reply)
    (prompt img : string) (retries : Z) (n : nat) :
  exists m,
    (m <= Z.to_nat retries)%nat
    /\ sleeps (trace_of (call_gemini_api backend prompt img retries n))
       = map (fun j => 2 ^ Z.of_nat j) (seq 0 m)
    /\ total_sleep (trace_of (call_gemini_api backend prompt img retries n))
       = 2 ^ Z.of_nat m - 1
    /\ (m <= count_posts (trace_of (call_gemini_api backend prompt img retries n))
          <= S m)%nat
    /\ (count_posts (trace_of (call_gemini_api backend prompt img retries n))
        <= Z.to_nat retries)%nat.
Proof.
  destruct (attempts_shape backend (payload prompt img) retries (Z.to_nat retries)
              0 1 n) as (k & Hk & _ & Hend).
  assert (Hs : forall ending,
             sleeps ending = [] ->
             sleeps (retry_trace (payload prompt img) retries k 0 1 ++ ending)
             = map (fun j => 2 ^ Z.of_nat j) (seq 0 k)).
  { intros ending He. rewrite sleeps_app, He, app_nil_r, sleeps_retry_trace.
    apply map_ext. intros j. lia. }
  assert (Ht : forall l, l = map (fun j => 2 ^ Z.of_nat j) (seq 0 k) ->
                         fold_right Z.add 0 l = 2 ^ Z.of_nat k - 1).
  { intros l ->.
    rewrite (map_ext _ (fun j => 1 * 2 ^ Z.of_nat j)) by (intros; lia).
    rewrite sum_doubling. lia. }
  exists k. split; [exact Hk |].
  unfold call_gemini_api, total_sleep.
  destruct Hend as [[Hk' Hrun] | (Hlt & _ & ending & r & Hlast & Hrun)];
    rewrite Hrun; cbn [trace_of fst].
  - split; [apply Hs; reflexivity |]. split; [apply Ht, Hs; reflexivity |].
    rewrite count_posts_app, count_posts_retry_trace. cbn. lia.
  - destruct (last_attempt_events _ _ _ _ Hlast) as (He & Hp & _).
    split; [apply Hs; exact He |]. split; [apply Ht, Hs; exact He |].
    rewrite count_posts_app, count_posts_retry_trace.
    unfold count_posts. rewrite Hp. cbn. lia.
Qed.

(** The delays slept in a call are 1, 2, 4, ... in this order, one after
    each retried attempt: as many as the requests sent, or one less, and
    never more than [retries]; their total is one less than a power of
    two. *)
Theorem backoff_schedule {RT : Runtime} (backend : nat -> reply)
    (prompt img : string) (retries : Z) (n : nat) :
  exists m,
    (m <= Z.to_nat retries)%nat
    /\ sleeps (trace_of (call_gemini_api backend prompt img retries n))
       = map (fun j => 2 ^ Z.of_nat j) (seq 0 m)
    /\ total_sleep (trace_of (call_gemini_api backend prompt img retries n))
       = 2 ^ Z.of_nat m - 1
    /\ (m <= count_posts (trace_of (call_gemini_api backend prompt img retries n))
          <= S m)%nat.
Proof.
  destruct (call_schedule backend prompt img retries n) as (m & H1 & H2 & H3 & H4 & _).
  exists m. auto.
Qed.

(** Whatever the backend answers, a call sends at most [retries] requests,
    and none when [retries] is negative. *)
Theorem requests_bounded {RT : Runtime} (backend : nat -> reply)
    (prompt img : string) (retries : Z) (n : nat) :
  (count_posts (trace_of (call_gemini_api backend prompt img retries n))
   <= Z.to_nat retries)%nat.
Proof.
  destruct (call_schedule backend prompt img retries n) as (m & _ & _ & _ & _ & H).
  exact H.
Qed.

(** Every request of a call goes to [MODEL_URL] with the same body, built
    once from the prompt and the image. *)
Theorem same_request_every_attempt {RT : Runtime} (backend : nat -> reply)
    (prompt img : string) (retries : Z) (n : nat) :
  filter is_post (trace_of (call_gemini_api backend prompt img retries n))
  = repeat (Post MODEL_URL (payload prompt img))
      (count_posts (trace_of (call_gemini_api backend prompt img retries n))).
Proof.
  unfold count_posts.
  assert (H : forall (l : list event) x k,
             l = repeat x k -> l = repeat x (List.length l))
    by (intros l x k ->; rewrite repeat_length; reflexivity).
  destruct (attempts_shape backend (payload prompt img) retries (Z.to_nat retries)
              0 1 n) as (k & _ & _ & Hend).
  unfold call_gemini_api.
  destruct Hend as [[_ Hrun] | (_ & _ & ending & r & Hlast & Hrun)];
    rewrite Hrun; cbn [trace_of fst]; rewrite filter_app, retry_trace_posts.
  - cbn. rewrite app_nil_r. apply (H _ _ k). reflexivity.
  - destruct (last_attempt_events _ _ _ _ Hlast) as (_ & Hp & _). rewrite Hp.
    apply (H _ _ (S k)). rewrite <- repeat_cons. reflexivity.
Qed.

(** The exceptions that leave [call_gemini_api] are [IndexError] and
    [TypeError], raised while the envelope is read, and the [ValueError]
    and [RecursionError] of the decoder; the request that provoked one is
    then the last event of the call, with no notice. *)
Theorem escaping_exceptions {RT : Runtime} (backend : nat -> reply)
    (prompt img : string) (retries : Z) (n : nat) :
  match result_of (call_gemini_api backend prompt img retries n) with
  | Ok _ => True
  | Raise e =>
      (e = IndexError \/ e = TypeError \/ e = ValueError \/ e = RecursionError)
      /\ exists k,
           trace_of (call_gemini_api backend prompt img retries n)
           = retry_trace (payload prompt img) retries k 0 1
               ++ [Post MODEL_URL (payload prompt img)]
  end.
Proof.
  destruct (attempts_shape backend (payload prompt img) retries (Z.to_nat retries)
              0 1 n) as (k & _ & _ & Hend).
  unfold call_gemini_api.
  destruct Hend as [[_ Hrun] | (_ & _ & ending & r & Hlast & Hrun)];
    rewrite Hrun; cbn [result_of trace_of fst snd]; [exact I |].
  destruct Hlast as [| | | e He | e He]; try exact I.
  - split; [destruct He; auto |]. exists k. reflexivity.
  - split; [destruct He; auto |]. exists k. reflexivity.
Qed.


(** With no budget, zero or negative, the loop body never runs: nothing is
    sent, and the call reports at once that the retries are exceeded. *)
Theorem no_budget_no_request {RT : Runtime} (backend : nat -> reply)
    (prompt img : string) (retries : Z) (n : nat) :
  retries <= 0 ->
  call_gemini_api backend prompt img retries n
  = ([StError MaxRetriesExceeded], n, Ok PNone).
Proof.
  intros H. unfold call_gemini_api.
  destruct retries as [| p | p]; [reflexivity | lia | reflexivity].
Qed.

(** ** Properties of every run of the script *)

Section ScriptFacts.

Context {RT : Runtime}.
Variable backend : nat -> reply.

(** A run of the script is a row of widgets, then possibly one call, then
    possibly the breakdown.  The call is there only if a file was uploaded
    and opened, the button was pressed and the image was encoded; the
    breakdown only if the call returned a true value, which the table then
    shows, the total following when the sum succeeds. *)
Lemma script_shape uploaded_file button n :
  exists widgets call breakdown,
    trace_of (script backend uploaded_file button n)
    = widgets ++ call ++ breakdown
    /\ forallb is_widget widgets = true
    /\ ((call = [] /\ breakdown = []
         /\ count_of (script backend uploaded_file button n) = n)
        \/ exists file img buffered,
             uploaded_file = Some file
             /\ Image_open file = Some img
             /\ button = true
             /\ save_jpeg img = Some buffered
             /\ call = trace_of (call_gemini_api backend prompt (b64encode buffered) 5 n)
             /\ count_of (script backend uploaded_file button n)
                = count_of (call_gemini_api backend prompt (b64encode buffered) 5 n)
             /\ (breakdown = []
                 \/ exists v,
                      result_of (call_gemini_api backend prompt (b64encode buffered) 5 n)
                      = Ok v
                      /\ truthy v = true
                      /\ (breakdown
                          = [ StSuccess AnalysisComplete;
                              StSubheader "Calorie Breakdown"; StTable v ]
                          \/ exists total,
                               total_calories v = Ok total
                               /\ breakdown
                                  = [ StSuccess AnalysisComplete;
                                      StSubheader "Calorie Breakdown"; StTable v;
                                      StHeader (TotalEstimated total) ]))).
Proof.
  pose (page := [ StPageConfig; StTitle "Food Calorie Estimator";
                  StMarkdown "Upload a picture of a meal to get a calorie estimate.";
                  StFileUploader "Choose an image..." ]).
  unfold script, bind, emit, lift, file_is_true.
  destruct uploaded_file as [file |]; cbn -[estimate_calories call_gemini_api prompt].
  2: { exists page, [], []. split; [reflexivity |]. split; [reflexivity |].
       left. repeat split. }
  destruct (Image_open file) as [img |] eqn:Ho; cbn -[estimate_calories call_gemini_api prompt].
  2: { exists page, [], []. split; [reflexivity |]. split; [reflexivity |].
       left. repeat split. }
  destruct button; cbn -[estimate_calories call_gemini_api prompt].
  2: { exists (page ++ [StImage; StButton "Estimate Calories"]), [], [].
       split; [reflexivity |]. split; [reflexivity |]. left. repeat split. }
  destruct (save_jpeg img) as [buffered |] eqn:Hs.
  2: { unfold estimate_calories, image_to_base64, bind, emit, lift. rewrite Hs. cbn.
       exists (page ++ [StImage; StButton "Estimate Calories";
                        StSpinner "Analyzing image..."]), [], [].
       split; [reflexivity |]. split; [reflexivity |]. left. repeat split. }
  destruct (call_gemini_api backend prompt (b64encode buffered) 5 n)
    as [[ct n'] [v | e]] eqn:Hc.
  2: { rewrite (estimate_calories_raises backend img buffered n ct n' e Hs Hc).
       exists (page ++ [StImage; StButton "Estimate Calories";
                        StSpinner "Analyzing image..."]), ct, [].
       cbn -[call_gemini_api prompt]. rewrite app_nil_r. split; [reflexivity |]. split; [reflexivity |].
       right. exists file, img, buffered. rewrite Hc. repeat split; auto. }
  rewrite (estimate_calories_run backend img buffered n ct n' v Hs Hc).
  destruct (truthy v) eqn:Ht.
  - destruct (if table_accepts v then total_calories v else Raise TableError)
      as [total | e] eqn:Hsum.
    + assert (Hsum' : total_calories v = Ok total)
        by (destruct (table_accepts v); [exact Hsum | discriminate Hsum]).
      exists (page ++ [StImage; StButton "Estimate Calories";
                       StSpinner "Analyzing image..."]), ct,
        [ StSuccess AnalysisComplete; StSubheader "Calorie Breakdown";
          StTable v; StHeader (TotalEstimated total) ].
      cbn -[call_gemini_api prompt]. split; [reflexivity |]. split; [reflexivity |].
      right. exists file, img, buffered. rewrite Hc. repeat split; auto.
      right. exists v. repeat split; auto. right. exists total. auto.
    + exists (page ++ [StImage; StButton "Estimate Calories";
                       StSpinner "Analyzing image..."]), ct,
        [ StSuccess AnalysisComplete; StSubheader "Calorie Breakdown";
          StTable v ].
      cbn -[call_gemini_api prompt]. split; [reflexivity |]. split; [reflexivity |].
      right. exists file, img, buffered. rewrite Hc. repeat split; auto.
      right. exists v. repeat split; auto.
  - exists (page ++ [StImage; StButton "Estimate Calories";
                     StSpinner "Analyzing image..."]), ct, [].
    cbn -[call_gemini_api prompt]. rewrite app_nil_r. split; [reflexivity |]. split; [reflexivity |].
    right. exists file, img, buffered. rewrite Hc. repeat split; auto.
Qed.

Lemma widgets_quiet widgets :
  forallb is_widget widgets = true ->
  filter is_post widgets = []
  /\ sleeps widgets = []
  /\ existsb is_upload_first widgets = false
  /\ filter is_breakdown widgets = [].
Proof.
  induction widgets as [| e widgets IH]; [repeat split |].
  cbn [forallb]. rewrite andb_true_iff. intros [He Hw].
  destruct (IH Hw) as (H1 & H2 & H3 & H4).
  destruct e; try discriminate He; cbn; auto.
Qed.

(** A call shows nothing of the breakdown and never the upload warning. *)
Lemma call_quiet prompt img retries n :
  existsb is_upload_first (trace_of (call_gemini_api backend prompt img retries n))
  = false
  /\ filter is_breakdown (trace_of (call_gemini_api backend prompt img retries n))
     = [].
Proof.
  assert (Hb : forall k i delay,
             filter is_breakdown (retry_trace (payload prompt img) retries k i delay)
             = []).
  { induction k as [| k IH]; intros i delay; [reflexivity | cbn; apply IH]. }
  destruct (attempts_shape backend (payload prompt img) retries (Z.to_nat retries)
              0 1 n) as (k & _ & _ & Hend).
  unfold call_gemini_api.
  destruct Hend as [[_ Hrun] | (_ & _ & ending & r & Hlast & Hrun)];
    rewrite Hrun; cbn [trace_of fst];
    rewrite existsb_app, filter_app, retry_trace_no_upload_first, Hb.
  - split; reflexivity.
  - destruct (last_attempt_events _ _ _ _ Hlast) as (_ & _ & Hu & Hbr).
    rewrite Hu, Hbr. split; reflexivity.
Qed.

End ScriptFacts.

(** C6, as amended.  What a call hands to the caller is either nothing, or
    [None], or the text payload of the last response, decoded and whole: it
    is never a part of the payload, and its entries are not checked against
    the schema.  The call itself shows nothing of the breakdown.  When the
    call raises, or returns [None] or anything else that is false, the
    caller shows nothing after the call and computes no total; and whatever
    is handed to the table is the whole value returned, which is then true,
    for a sequence: not empty. *)
Theorem results_whole_or_none {RT : Runtime} (backend : nat -> reply)
    (img : image) (buffered : list byte) (n : nat)
    (ct : list event) (n' : nat) (r : pyresult pyval) :
  save_jpeg img = Some buffered ->
  call_gemini_api backend prompt (b64encode buffered) 5 n = (ct, n', r) ->
  filter is_breakdown ct = []
  /\ truthy PNone = false
  /\ match r with
     | Ok v =>
         (v = PNone \/ exists m, n' = S m /\ decoded_from (backend m) v)
         /\ (truthy v = false ->
             estimate_calories backend img n
             = (StSpinner "Analyzing image..." :: ct, n', Ok tt))
     | Raise e =>
         estimate_calories backend img n
         = (StSpinner "Analyzing image..." :: ct, n', Raise e)
     end
  /\ (forall data,
        In (StTable data) (trace_of (estimate_calories backend img n)) ->
        r = Ok data /\ truthy data = true).
Proof.
  intros Hs Hc.
  assert (Hshown : filter is_breakdown ct = []).
  { pose proof (proj2 (call_quiet backend prompt (b64encode buffered) 5 n)) as H.
    rewrite Hc in H. exact H. }
  assert (Hct : forall data, ~ In (StTable data) ct).
  { intros data Hin.
    assert (H : In (StTable data) (filter is_breakdown ct))
      by (apply filter_In; split; [exact Hin | reflexivity]).
    rewrite Hshown in H. destruct H. }
  split; [exact Hshown |]. split; [reflexivity |].
  destruct r as [v | e].
  - rewrite (estimate_calories_run backend img buffered n ct n' v Hs Hc).
    split; [split |].
    + apply (attempts_inv backend _ _ _ _ _ _ _ _ _ Hc).
    + intros Ht. rewrite Ht. reflexivity.
    + intros data. destruct (truthy v) eqn:Ht.
      * assert (Hv : forall tail,
                   In (StTable data)
                      (StSpinner "Analyzing image..."
                         :: ct ++ StSuccess AnalysisComplete
                         :: StSubheader "Calorie Breakdown" :: StTable v :: tail) ->
                   (forall x, In x tail -> x <> StTable data) ->
                   Ok v = Ok data /\ truthy data = true).
        { intros tail [[=] | Hin] Htail.
          apply in_app_or in Hin as [Hin | Hin]; [destruct (Hct _ Hin) |].
          destruct Hin as [[=] | [[=] | [[= <-] | Hin]]];
            [split; [reflexivity | exact Ht] |].
          destruct (Htail _ Hin eq_refl). }
        destruct (if table_accepts v then total_calories v else Raise TableError)
          as [total | e]; cbn [trace_of fst]; intros Hin;
          apply (Hv _ Hin).
        -- intros x [<- | []]. discriminate.
        -- intros x [].
      * cbn [trace_of fst]. intros [[=] | Hin]. destruct (Hct _ Hin).
  - rewrite (estimate_calories_raises backend img buffered n ct n' e Hs Hc).
    split; [reflexivity |].
    cbn [trace_of fst]. intros data [[=] | Hin]. destruct (Hct _ Hin).
Qed.

(** A request is sent only when a file was uploaded, Pillow opened it, the
    button was pressed and the image could be written as JPEG. *)
Theorem request_needs_click {RT : Runtime} (backend : nat -> reply)
    (uploaded_file : option upload) (button : bool) (n : nat) :
  count_posts (trace_of (script backend uploaded_file button n)) <> 0%nat ->
  exists file img buffered,
    uploaded_file = Some file
    /\ Image_open file = Some img
    /\ button = true
    /\ save_jpeg img = Some buffered.
Proof.
  intros H.
  destruct (script_shape backend uploaded_file button n)
    as (widgets & call & breakdown & Ht & Hw & Hcases).
  destruct Hcases as [(-> & -> & _) | (file & img & buffered & H1 & H2 & H3 & H4 & _)].
  - exfalso. apply H. rewrite Ht, !app_nil_r. unfold count_posts.
    destruct (widgets_quiet widgets Hw) as (-> & _). reflexivity.
  - exists file, img, buffered. auto.
Qed.

(** One run of the script, whatever is uploaded and whatever the backend
    answers, sends at most 5 requests and sleeps at most 31 time units. *)
Theorem click_budget {RT : Runtime} (backend : nat -> reply)
    (uploaded_file : option upload) (button : bool) (n : nat) :
  (count_posts (trace_of (script backend uploaded_file button n)) <= 5)%nat
  /\ 0 <= total_sleep (trace_of (script backend uploaded_file button n)) <= 31
  /\ (count_of (script backend uploaded_file button n)
      = n + count_posts (trace_of (script backend uploaded_file button n)))%nat.
Proof.
  destruct (script_shape backend uploaded_file button n)
    as (widgets & call & breakdown & Ht & Hw & Hcases).
  destruct (widgets_quiet widgets Hw) as (Hwp & Hws & _).
  rewrite Ht. unfold total_sleep, count_posts.
  rewrite !filter_app, !sleeps_app, Hwp, Hws. cbn [app].
  destruct Hcases as [(-> & -> & Hn)
                     | (file & img & buffered & _ & _ & _ & _ & -> & Hn & Hb)].
  - rewrite Hn. cbn. lia.
  - assert (Hq : filter is_post breakdown = [] /\ sleeps breakdown = []).
    { destruct Hb as [-> | (v & _ & _ & [-> | (total & _ & ->)])]; split; reflexivity. }
    destruct Hq as [-> ->]. rewrite !app_nil_r, Hn.
    destruct (call_schedule backend prompt (b64encode buffered) 5 n)
      as (m & Hm & _ & Htot & _ & Hc).
    pose proof (requests_count backend prompt (b64encode buffered) 5 n) as Hcount.
    change (Z.to_nat 5) with 5%nat in Hm, Hc.
    unfold total_sleep in Htot. unfold count_posts in Hc, Hcount. rewrite Htot.
    split; [exact Hc |]. split; [| exact Hcount].
    assert (Hlo : 0 < 2 ^ Z.of_nat m) by (apply Z.pow_pos_nonneg; lia).
    assert (Hhi : 2 ^ Z.of_nat m <= 2 ^ 5) by (apply Z.pow_le_mono_r; lia).
    change (2 ^ 5) with 32 in Hhi. lia.
Qed.

(** The warning "Please upload an image first." is never shown: its branch
    is taken only when an uploaded file object is false, which it never
    is, and nothing else shows that warning. *)
Theorem upload_warning_unreachable {RT : Runtime} (backend : nat -> reply)
    (uploaded_file : option upload) (button : bool) (n : nat) :
  existsb is_upload_first (trace_of (script backend uploaded_file button n)) = false.
Proof.
  destruct (script_shape backend uploaded_file button n)
    as (widgets & call & breakdown & Ht & Hw & Hcases).
  destruct (widgets_quiet widgets Hw) as (_ & _ & Hwu & _).
  rewrite Ht, !existsb_app, Hwu. cbn [orb].
  destruct Hcases as [(-> & -> & _)
                     | (file & img & buffered & _ & _ & _ & _ & -> & _ & Hb)];
    [reflexivity |].
  rewrite (proj1 (call_quiet backend prompt (b64encode buffered) 5 n)). cbn [orb].
  destruct Hb as [-> | (v & _ & _ & [-> | (total & _ & ->)])]; reflexivity.
Qed.

(** Whatever the table shows is true and is the decoded text payload of a
    reply of the backend; and a total is shown only next to a table, for the
    value in it. *)
Theorem table_shows_backend_data {RT : Runtime} (backend : nat -> reply)
    (uploaded_file : option upload) (button : bool) (n : nat) (v : pyval) :
  In (StTable v) (trace_of (script backend uploaded_file button n)) ->
  truthy v = true
  /\ (exists m, decoded_from (backend m) v)
  /\ (forall total,
        In (StHeader (TotalEstimated total))
           (trace_of (script backend uploaded_file button n)) ->
        total_calories v = Ok total).
Proof.
  intros Hin.
  destruct (script_shape backend uploaded_file button n)
    as (widgets & call & breakdown & Ht & Hw & Hcases).
  destruct (widgets_quiet widgets Hw) as (_ & _ & _ & Hwb).
  assert (Hfil : forall e,
             is_breakdown e = true ->
             In e (trace_of (script backend uploaded_file button n)) ->
             In e (filter is_breakdown breakdown)
             /\ exists buffered,
                  call = trace_of (call_gemini_api backend prompt (b64encode buffered) 5 n)).
  { intros e He Hi. rewrite Ht in Hi.
    assert (Hi' : In e (filter is_breakdown (widgets ++ call ++ breakdown)))
      by (apply filter_In; auto).
    rewrite !filter_app, Hwb in Hi'. cbn [app] in Hi'.
    destruct Hcases as [(-> & -> & _)
                       | (file & img & buffered & _ & _ & _ & _ & Hc & _)];
      [destruct Hi' |].
    rewrite Hc, (proj2 (call_quiet backend prompt (b64encode buffered) 5 n)) in Hi'.
    split; [exact Hi' | eauto]. }
  destruct Hcases as [(-> & -> & _)
                     | (file & img & buffered & _ & _ & _ & _ & Hc & _ & Hb)].
  { destruct (Hfil (StTable v) eq_refl Hin) as [[] _]. }
  destruct (Hfil (StTable v) eq_refl Hin) as [Hv _].
  destruct Hb as [-> | (w & Hres & Htr & Hbd)]; [destruct Hv |].
  assert (Hw' : w = v).
  { destruct Hbd as [-> | (total & _ & ->)]; cbn in Hv.
    - destruct Hv as [[=] | [[=] | [[= ->] | []]]]. reflexivity.
    - destruct Hv as [[=] | [[=] | [[= ->] | [[=] | []]]]]. reflexivity. }
  subst w. split; [exact Htr |]. split.
  - destruct (call_gemini_api backend prompt (b64encode buffered) 5 n)
      as [[ct n'] r] eqn:Hcall.
    cbn in Hres. subst r.
    destruct (attempts_inv backend _ _ _ _ _ _ _ _ _ Hcall) as [_ [-> | (m & _ & Hd)]];
      [discriminate Htr | eauto].
  - intros total Hh.
    destruct (Hfil (StHeader (TotalEstimated total)) eq_refl Hh) as [Ht' _].
    destruct Hbd as [-> | (total' & Hsum & ->)]; cbn in Ht'.
    + destruct Ht' as [[=] | [[=] | [[=] | []]]].
    + destruct Ht' as [[=] | [[=] | [[=] | [[= ->] | []]]]]. exact Hsum.
Qed.

(** ** Properties of the total *)

(** The exact total does not depend on the order of the entries. *)
Lemma TotalCalories_perm (a b : list pyval) :
  Permutation a b -> TotalCalories a = TotalCalories b.
Proof.
  induction 1 as [| x a b _ IH | x y a | a b c _ IH1 _ IH2].
  - reflexivity.
  - cbn. rewrite IH. reflexivity.
  - cbn. destruct (calories_or_zero x), (calories_or_zero y), (TotalCalories a);
      try reflexivity.
    f_equal. lia.
  - congruence.
Qed.

(** The order of the entries does not change the total, when their
    calories, where given, are integers. *)
Theorem total_ignores_order {RT : Runtime} (entries entries' : list pyval) :
  Forall integer_calories entries ->
  Permutation entries entries' ->
  total_calories (PList entries) = total_calories (PList entries').
Proof.
  intros H Hp.
  assert (H' : Forall integer_calories entries')
    by (eapply Permutation_Forall; eassumption).
  unfold total_calories. cbn [iterate].
  destruct (sum_from_integers entries H) as (t & Ht & Hs).
  destruct (sum_from_integers entries' H') as (t' & Ht' & Hs').
  rewrite Hs, Hs'.
  rewrite (TotalCalories_perm _ _ Hp), Ht' in Ht. congruence.
Qed.

(** The sum stops at the first entry it cannot add, whatever follows: an
    entry that is not an object has no [get] and raises [AttributeError];
    an object whose calories is null, a string, a list or an object raises
    [TypeError]. *)
Theorem total_stops_at_bad_entry {RT : Runtime} (good rest : list pyval)
    (bad : pyval) :
  Forall integer_calories good ->
  ((forall d, bad <> PDict d) ->
   total_calories (PList (good ++ bad :: rest)) = Raise AttributeError)
  /\ (forall d c,
        bad = PDict d ->
        lookup "calories" d = Some c ->
        not_a_number c ->
        total_calories (PList (good ++ bad :: rest)) = Raise TypeError).
Proof.
  intros H. unfold total_calories. cbn [iterate].
  destruct (sum_from_app good (bad :: rest) H) as (t & _ & Hs). rewrite Hs.
  split.
  - intros Hd. destruct bad; try reflexivity. destruct (Hd entries eq_refl).
  - intros d c -> Hc Hn. cbn [sum_from get_calories]. rewrite Hc.
    destruct c; cbn in Hn; try contradiction; reflexivity.
Qed.

(** A true result that is not a list gets no total: the page shows the
    banner and the subheader and hands the value to [st.table], and the run
    ends there by an exception.  When the table cannot draw the value it is
    the table's; otherwise the sum raises [AttributeError] for an object or
    a string (it iterates over keys or characters) and [TypeError] for a
    number or [True] (it cannot iterate). *)
Theorem total_needs_a_list {RT : Runtime} (backend : nat -> reply)
    (img : image) (buffered : list byte) (n : nat)
    (ct : list event) (n' : nat) (v : pyval) :
  save_jpeg img = Some buffered ->
  call_gemini_api backend prompt (b64encode buffered) 5 n = (ct, n', Ok v) ->
  truthy v = true ->
  (forall entries, v <> PList entries) ->
  estimate_calories backend img n
  = (StSpinner "Analyzing image..." :: ct
       ++ [StSuccess AnalysisComplete; StSubheader "Calorie Breakdown"; StTable v],
     n',
     Raise (if table_accepts v then
              match v with
              | PDict _ | PStr _ => AttributeError
              | _ => TypeError
              end
            else TableError)).
Proof.
  intros Hs Hc Ht Hl.
  rewrite (estimate_calories_run backend img buffered n ct n' v Hs Hc), Ht.
  destruct (table_accepts v); [| reflexivity].
  assert (Hsum : total_calories v
                 = Raise match v with
                         | PDict _ | PStr _ => AttributeError
                         | _ => TypeError
                         end).
  { unfold total_calories. destruct v; cbn in *; try reflexivity; try discriminate.
    - destruct s as [| c s]; [discriminate | reflexivity].
    - destruct (Hl items eq_refl).
    - destruct entries as [| [k x] entries]; [discriminate | reflexivity]. }
  rewrite Hsum. reflexivity.
Qed.

(** ** Properties of the encoder *)

(** Lists, three elements at a time. *)
Lemma list_ind3 {A} (P : list A -> Prop) :
  P [] ->
  (forall a, P [a]) ->
  (forall a b, P [a; b]) ->
  (forall a b c rest, P rest -> P (a :: b :: c :: rest)) ->
  forall l, P l.
Proof.
  intros H0 H1 H2 H3.
  assert (H : forall l, P l /\ (forall a, P (a :: l)) /\ (forall a b, P (a :: b :: l))).
  { induction l as [| x l (IH0 & IH1 & IH2)]; [auto |].
    split; [apply IH1 |]. split; [intros a; apply IH2 |].
    intros a b. apply H3, IH0. }
  intros l. apply H.
Qed.

Lemma get_in (s : string) :
  forall k c, String.get k s = Some c -> In c (list_ascii_of_string s).
Proof.
  induction s as [| a s IH]; intros k c; [destruct k; discriminate |].
  destruct k as [| k]; cbn.
  - intros [= ->]. left; reflexivity.
  - intros H. right. eapply IH. exact H.
Qed.

Lemma b64_digit_char n : In (b64_digit n) b64_chars.
Proof.
  unfold b64_digit, b64_chars.
  destruct (String.get (N.to_nat n) b64_alphabet) as [c |] eqn:Hg.
  - apply get_in in Hg.
    change (list_ascii_of_string (b64_alphabet ++ "="))
      with (list_ascii_of_string b64_alphabet ++ ["="%char]).
    apply in_or_app. left. exact Hg.
  - change (list_ascii_of_string (b64_alphabet ++ "="))
      with (list_ascii_of_string b64_alphabet ++ ["="%char]).
    apply in_or_app. right. left. reflexivity.
Qed.

(** A digit below 64 is found back at its place in the alphabet. *)
Lemma b64_index_digit n : (n < 64)%N -> b64_index (b64_digit n) = Some n.
Proof.
  intros H.
  assert (Hall : forallb (fun k => match b64_index (b64_digit (N.of_nat k)) with
                                   | Some v => N.eqb v (N.of_nat k)
                                   | None => false
                                   end) (seq 0 64) = true)
    by (vm_compute; reflexivity).
  rewrite forallb_forall in Hall.
  specialize (Hall (N.to_nat n)). rewrite N2Nat.id in Hall.
  assert (Hin : In (N.to_nat n) (seq 0 64)) by (apply in_seq; lia).
  specialize (Hall Hin).
  destruct (b64_index (b64_digit n)) as [v |]; [| discriminate].
  apply N.eqb_eq in Hall. congruence.
Qed.

Ltac euclid := zify; Z.to_euclidean_division_equations; lia.

Lemma b64_pad_index : b64_index "=" = None.
Proof. vm_compute. reflexivity. Qed.

(** Decoding undoes encoding. *)
Lemma b64decode_b64encode (data : list byte) :
  b64decode (b64encode data) = Some data.
Proof.
  induction data as [| a | a b | a b c rest IH] using list_ind3.
  - reflexivity.
  - pose proof (Byte.to_N_bounded a) as Ha.
    cbn [b64encode b64decode].
    rewrite !b64_index_digit, b64_pad_index by euclid.
    replace ((Byte.to_N a mod 4 * 16) mod 16 =? 0)%N with true
      by (symmetry; apply N.eqb_eq; euclid).
    cbn [Ascii.eqb String.eqb andb Bool.eqb]. unfold b64_bytes.
    replace (Byte.to_N a / 4 * 4 + Byte.to_N a mod 4 * 16 / 16)%N
      with (Byte.to_N a) by euclid.
    rewrite Byte.of_to_N.
    replace ((Byte.to_N a mod 4 * 16) mod 16 * 16 + 0 / 4)%N with 0%N by euclid.
    reflexivity.
  - pose proof (Byte.to_N_bounded a) as Ha. pose proof (Byte.to_N_bounded b) as Hb.
    cbn [b64encode b64decode].
    rewrite !b64_index_digit, b64_pad_index by euclid.
    replace ((Byte.to_N b mod 16 * 4) mod 4 =? 0)%N with true
      by (symmetry; apply N.eqb_eq; euclid).
    cbn [Ascii.eqb String.eqb andb Bool.eqb]. unfold b64_bytes.
    replace (Byte.to_N a / 4 * 4 + (Byte.to_N a mod 4 * 16 + Byte.to_N b / 16) / 16)%N
      with (Byte.to_N a) by euclid.
    replace ((Byte.to_N a mod 4 * 16 + Byte.to_N b / 16) mod 16 * 16
             + Byte.to_N b mod 16 * 4 / 4)%N
      with (Byte.to_N b) by euclid.
    rewrite !Byte.of_to_N.
    replace ((Byte.to_N b mod 16 * 4) mod 4 * 64 + 0)%N with 0%N by euclid.
    reflexivity.
  - pose proof (Byte.to_N_bounded a) as Ha. pose proof (Byte.to_N_bounded b) as Hb.
    pose proof (Byte.to_N_bounded c) as Hc.
    cbn [b64encode b64decode].
    rewrite !b64_index_digit by euclid.
    unfold b64_bytes.
    replace (Byte.to_N a / 4 * 4 + (Byte.to_N a mod 4 * 16 + Byte.to_N b / 16) / 16)%N
      with (Byte.to_N a) by euclid.
    replace ((Byte.to_N a mod 4 * 16 + Byte.to_N b / 16) mod 16 * 16
             + (Byte.to_N b mod 16 * 4 + Byte.to_N c / 64) / 4)%N
      with (Byte.to_N b) by euclid.
    replace ((Byte.to_N b mod 16 * 4 + Byte.to_N c / 64) mod 4 * 64
             + Byte.to_N c mod 64)%N
      with (Byte.to_N c) by euclid.
    rewrite !Byte.of_to_N, IH. reflexivity.
Qed.

Lemma b64encode_length (data : list byte) :
  String.length (b64encode data) = (4 * ((List.length data + 2) / 3))%nat.
Proof.
  induction data as [| a | a b | a b c rest IH] using list_ind3;
    try reflexivity.
  cbn [b64encode String.length List.length]. rewrite IH.
  replace (S (S (S (List.length rest))) + 2)%nat
    with (1 * 3 + (List.length rest + 2))%nat by lia.
  rewrite Nat.div_add_l by lia. lia.
Qed.

Lemma b64encode_chars (data : list byte) :
  Forall (fun c => In c b64_chars) (list_ascii_of_string (b64encode data)).
Proof.
  assert (Hpad : In "="%char b64_chars).
  { unfold b64_chars.
    change (list_ascii_of_string (b64_alphabet ++ "="))
      with (list_ascii_of_string b64_alphabet ++ ["="%char]).
    apply in_or_app. right. left. reflexivity. }
  induction data as [| a | a b | a b c rest IH] using list_ind3;
    cbn [b64encode list_ascii_of_string];
    repeat (constructor; [first [apply b64_digit_char | exact Hpad] |]);
    first [constructor | exact IH].
Qed.

(** The text that [image_to_base64] returns can be decoded back to the
    very bytes that were written as JPEG; so two images with the same text
    were written as the same bytes. *)
Theorem encoded_image_decodes {RT : Runtime} (img img' : image) (text : string) :
  image_to_base64 img = Ok text ->
  (exists buffered, save_jpeg img = Some buffered /\ b64decode text = Some buffered)
  /\ (image_to_base64 img' = Ok text -> save_jpeg img' = save_jpeg img).
Proof.
  unfold image_to_base64.
  destruct (save_jpeg img) as [buffered |]; [| discriminate].
  intros [= <-]. split.
  - exists buffered. split; [reflexivity | apply b64decode_b64encode].
  - destruct (save_jpeg img') as [buffered' |]; [| discriminate].
    intros [= H]. f_equal.
    pose proof (b64decode_b64encode buffered') as Hd.
    rewrite H, b64decode_b64encode in Hd. congruence.
Qed.

(** The text that [image_to_base64] returns has four characters for every
    three bytes written, the last group padded, and holds nothing but
    letters, digits, [+], [/] and [=]. *)
Theorem encoded_image_shape {RT : Runtime} (img : image) (text : string) :
  image_to_base64 img = Ok text ->
  exists buffered,
    save_jpeg img = Some buffered
    /\ String.length text = (4 * ((List.length buffered + 2) / 3))%nat
    /\ Forall (fun c => In c b64_chars) (list_ascii_of_string text).
Proof.
  unfold image_to_base64.
  destruct (save_jpeg img) as [buffered |]; [| discriminate].
  intros [= <-]. exists buffered.
  split; [reflexivity |]. split; [apply b64encode_length | apply b64encode_chars].
Qed.

(** ** The further properties at concrete inputs *)

(** A budget of zero. *)
Lemma no_budget_no_request_witness :
  0 <= 0
  /\ call_gemini_api (RT := Reference.runtime) (fun _ => Reply 200 apple_body)
       prompt "" 0 0%nat
     = ([StError MaxRetriesExceeded], 0%nat, Ok PNone).
Proof.
  assert (H : 0 <= 0) by lia.
  split; [exact H |].
  exact (no_budget_no_request (RT := Reference.runtime)
           (fun _ => Reply 200 apple_body) prompt "" 0 0%nat H).
Defined.

(** No result: nothing is shown after the permission error. *)
Lemma results_whole_or_none_witness :
  @save_jpeg Reference.runtime meal = Some [xff; xd8; x10; x20; x30; xff; xd9]%byte
  /\ call_gemini_api (RT := Reference.runtime) (fun _ => Reply 403 "") prompt
       (b64encode [xff; xd8; x10; x20; x30; xff; xd9]%byte) 5 0%nat
     = ([Post MODEL_URL (payload prompt "/9gQIDD/2Q=="); StError Forbidden403],
        1%nat, Ok PNone)
  /\ estimate_calories (RT := Reference.runtime) (fun _ => Reply 403 "") meal 0%nat
     = ([ StSpinner "Analyzing image...";
          Post MODEL_URL (payload prompt "/9gQIDD/2Q==");
          StError Forbidden403 ],
        1%nat, Ok tt).
Proof.
  assert (Hs : @save_jpeg Reference.runtime meal
               = Some [xff; xd8; x10; x20; x30; xff; xd9]%byte) by reflexivity.
  assert (Hc : call_gemini_api (RT := Reference.runtime) (fun _ => Reply 403 "")
                 prompt (b64encode [xff; xd8; x10; x20; x30; xff; xd9]%byte) 5 0%nat
               = ([Post MODEL_URL (payload prompt "/9gQIDD/2Q=="); StError Forbidden403],
                  1%nat, Ok PNone)) by (vm_compute; reflexivity).
  split; [exact Hs |]. split; [exact Hc |].
  exact (proj2 (proj1 (proj2 (proj2
           (results_whole_or_none (RT := Reference.runtime) (fun _ => Reply 403 "")
              meal _ 0%nat _ 1%nat (Ok PNone) Hs Hc)))) eq_refl).
Defined.

(** A photo, a click and the response of the example: one request. *)
Lemma request_needs_click_witness :
  count_posts
    (trace_of (script (RT := Reference.runtime) (fun _ => Reply 200 apple_body)
                 (Some (Reference.Photo meal)) true 0%nat))
  = 1%nat
  /\ exists file img buffered,
       Some (Reference.Photo meal) = Some file
       /\ @Image_open Reference.runtime file = Some img
       /\ true = true
       /\ @save_jpeg Reference.runtime img = Some buffered.
Proof.
  assert (H : count_posts
                (trace_of (script (RT := Reference.runtime)
                             (fun _ => Reply 200 apple_body)
                             (Some (Reference.Photo meal)) true 0%nat))
              = 1%nat) by (vm_compute; reflexivity).
  split; [exact H |].
  apply (request_needs_click (RT := Reference.runtime)
           (fun _ => Reply 200 apple_body) (Some (Reference.Photo meal)) true 0%nat).
  rewrite H. discriminate.
Defined.

(** The table of the example shows the decoded entries. *)
Lemma table_shows_backend_data_witness :
  In (StTable apple_result)
     (trace_of (script (RT := Reference.runtime) (fun _ => Reply 200 apple_body)
                  (Some (Reference.Photo meal)) true 0%nat))
  /\ truthy apple_result = true
  /\ exists m,
       decoded_from (RT := Reference.runtime)
         ((fun _ : nat => Reply 200 apple_body) m) apple_result.
Proof.
  assert (H : In (StTable apple_result)
                (trace_of (script (RT := Reference.runtime)
                             (fun _ => Reply 200 apple_body)
                             (Some (Reference.Photo meal)) true 0%nat))).
  { vm_compute. do 10 right. left. reflexivity. }
  split; [exact H |].
  destruct (table_shows_backend_data (RT := Reference.runtime)
              (fun _ => Reply 200 apple_body) (Some (Reference.Photo meal)) true
              0%nat apple_result H) as (Ht & Hd & _).
  split; [exact Ht | exact Hd].
Defined.

(** The two entries of the example, in both orders. *)
Lemma total_ignores_order_witness :
  Forall integer_calories
    [ PDict [("food_item", PStr "A"); ("calories", PInt 10)];
      PDict [("food_item", PStr "B")] ]
  /\ total_calories (RT := Reference.runtime)
       (PList [ PDict [("food_item", PStr "A"); ("calories", PInt 10)];
                PDict [("food_item", PStr "B")] ])
     = total_calories (RT := Reference.runtime)
         (PList [ PDict [("food_item", PStr "B")];
                  PDict [("food_item", PStr "A"); ("calories", PInt 10)] ]).
Proof.
  assert (H : Forall integer_calories
                [ PDict [("food_item", PStr "A"); ("calories", PInt 10)];
                  PDict [("food_item", PStr "B")] ]).
  { repeat constructor.
    - eexists. split; [reflexivity |]. right. exists 10. reflexivity.
    - eexists. split; [reflexivity |]. left. reflexivity. }
  split; [exact H |].
  apply (total_ignores_order (RT := Reference.runtime) _ _ H).
  apply perm_swap.
Defined.

(** An entry that is a bare number, after one good entry. *)
Lemma total_stops_at_bad_entry_witness :
  Forall integer_calories [PDict [("food_item", PStr "A"); ("calories", PInt 10)]]
  /\ total_calories (RT := Reference.runtime)
       (PList ([PDict [("food_item", PStr "A"); ("calories", PInt 10)]]
                 ++ PInt 7 :: [PDict [("calories", PInt 1)]]))
     = Raise AttributeError.
Proof.
  assert (H : Forall integer_calories
                [PDict [("food_item", PStr "A"); ("calories", PInt 10)]]).
  { repeat constructor. eexists. split; [reflexivity |]. right. exists 10. reflexivity. }
  split; [exact H |].
  apply (proj1 (total_stops_at_bad_entry (RT := Reference.runtime) _
                  [PDict [("calories", PInt 1)]] (PInt 7) H)).
  intros d. discriminate.
Defined.

(** A payload that is one object: banner and table, then [AttributeError]. *)
Lemma total_needs_a_list_witness :
  truthy object_result = true
  /\ estimate_calories (RT := Reference.runtime) (fun _ => Reply 200 object_body)
       meal 0%nat
     = ([ StSpinner "Analyzing image...";
          Post MODEL_URL (payload prompt "/9gQIDD/2Q==");
          StSuccess AnalysisComplete;
          StSubheader "Calorie Breakdown";
          StTable object_result ],
        1%nat, Raise AttributeError).
Proof.
  split; [reflexivity |].
  refine (total_needs_a_list (RT := Reference.runtime) (fun _ => Reply 200 object_body)
            meal [xff; xd8; x10; x20; x30; xff; xd9]%byte 0%nat
            [Post MODEL_URL (payload prompt "/9gQIDD/2Q==")] 1%nat object_result
            eq_refl _ eq_refl _).
  - vm_compute. reflexivity.
  - intros entries. discriminate.
Defined.

(** The encoded photo decodes to its seven bytes. *)
Lemma encoded_image_decodes_witness :
  image_to_base64 (RT := Reference.runtime) meal = Ok "/9gQIDD/2Q=="
  /\ exists buffered,
       @save_jpeg Reference.runtime meal = Some buffered
       /\ b64decode "/9gQIDD/2Q==" = Some buffered.
Proof.
  assert (H : image_to_base64 (RT := Reference.runtime) meal = Ok "/9gQIDD/2Q==")
    by reflexivity.
  split; [exact H |].
  exact (proj1 (encoded_image_decodes (RT := Reference.runtime) meal meal
                  "/9gQIDD/2Q==" H)).
Defined.

(** Seven bytes give twelve characters. *)
Lemma encoded_image_shape_witness :
  image_to_base64 (RT := Reference.runtime) meal = Ok "/9gQIDD/2Q=="
  /\ exists buffered,
       @save_jpeg Reference.runtime meal = Some buffered
       /\ String.length "/9gQIDD/2Q==" = (4 * ((List.length buffered + 2) / 3))%nat
       /\ Forall (fun c => In c b64_chars) (list_ascii_of_string "/9gQIDD/2Q==").
Proof.
  assert (H : image_to_base64 (RT := Reference.runtime) meal = Ok "/9gQIDD/2Q==")
    by reflexivity.
  split; [exact H |].
  exact (encoded_image_shape (RT := Reference.runtime) meal "/9gQIDD/2Q==" H).
Defined.
